(** * The Symbian serial-port engine (serialportengine_symbian.cpp)

    A shallow embedding of [SymbianSerialPortEngine]: the baud-rate table and
    its two lookups, the five configuration setters, the detection of the
    portable settings, [open], [close] and the readiness wait [select],
    followed by the properties of the engine. *)

From Equations Require Import Equations.
From Stdlib Require Import ZArith List Bool Lia String Arith Sorted.
Import ListNotations.

Local Open Scope Z_scope.

(** ** Platform declarations

    The Symbian headers are not part of the repository; the engine only names
    their constants.  They are listed here with the values the platform gives
    them. *)

Module E32.
(** System-wide error codes of e32err.h. *)
Definition KErrNone : Z := 0.
Definition KErrNotFound : Z := -1.
Definition KErrGeneral : Z := -2.
Definition KErrNotSupported : Z := -5.
Definition KErrAlreadyExists : Z := -11.
Definition KErrAccessDenied : Z := -21.
Definition KErrLocked : Z := -22.
Definition KErrPermissionDenied : Z := -46.

(** e32const.h: [const TInt KRequestPending = (-KMaxTInt)]. *)
Definition KRequestPending : Z := -2147483647.
End E32.

Module D32Comm.
(** [enum TBps] of d32comm.h, in declaration order: the enumerators count
    up from zero, and the 921600 entry comes after the 4000000 one. *)
Definition EBps50 : Z := 0.
Definition EBps75 : Z := 1.
Definition EBps110 : Z := 2.
Definition EBps134 : Z := 3.
Definition EBps150 : Z := 4.
Definition EBps300 : Z := 5.
Definition EBps600 : Z := 6.
Definition EBps1200 : Z := 7.
Definition EBps1800 : Z := 8.
Definition EBps2000 : Z := 9.
Definition EBps2400 : Z := 10.
Definition EBps3600 : Z := 11.
Definition EBps4800 : Z := 12.
Definition EBps7200 : Z := 13.
Definition EBps9600 : Z := 14.
Definition EBps19200 : Z := 15.
Definition EBps38400 : Z := 16.
Definition EBps57600 : Z := 17.
Definition EBps115200 : Z := 18.
Definition EBps230400 : Z := 19.
Definition EBps460800 : Z := 20.
Definition EBps576000 : Z := 21.
Definition EBps1152000 : Z := 22.
Definition EBps4000000 : Z := 23.
Definition EBps921600 : Z := 24.

(** [enum TDataBits], [enum TStopBits], [enum TParity]. *)
Definition EData5 : Z := 0.
Definition EData6 : Z := 1.
Definition EData7 : Z := 2.
Definition EData8 : Z := 3.

Definition EStop1 : Z := 0.
Definition EStop2 : Z := 1.

Definition EParityNone : Z := 0.
Definition EParityEven : Z := 1.
Definition EParityOdd : Z := 2.
Definition EParityMark : Z := 3.
Definition EParitySpace : Z := 4.

(** Handshake bits of [TCommConfigV01::iHandshake]. *)
Definition KConfigObeyXoff : Z := 0x01.
Definition KConfigSendXoff : Z := 0x02.
Definition KConfigObeyCTS : Z := 0x04.
Definition KConfigFailDSR : Z := 0x20.
Definition KConfigFreeRTS : Z := 0x100.
End D32Comm.

Import E32 D32Comm.

(** The fields of [TCommConfigV01] the engine reads or writes. *)
Record TCommConfigV01 : Set := mkCommConfig {
  iRate : Z;
  iDataBits : Z;
  iStopBits : Z;
  iParity : Z;
  iHandshake : Z
}.

(** ** The rate table *)

Record RatePair : Set := mkRatePair {
  rate : Z;     (* The numerical value of baud rate. *)
  setting : Z   (* The OS-specific code of baud rate. *)
}.

(** [RatePair::operator<] compares rates, [RatePair::operator==] settings. *)
Definition RatePair_lt (a b : RatePair) : bool := rate a <? rate b.
Definition RatePair_eq (a b : RatePair) : bool := setting a =? setting b.

Definition standardRatesTable : list RatePair :=
  [ mkRatePair 50 EBps50;
    mkRatePair 75 EBps75;
    mkRatePair 110 EBps110;
    mkRatePair 134 EBps134;
    mkRatePair 150 EBps150;
    mkRatePair 300 EBps300;
    mkRatePair 600 EBps600;
    mkRatePair 1200 EBps1200;
    mkRatePair 1800 EBps1800;
    mkRatePair 2000 EBps2000;
    mkRatePair 2400 EBps2400;
    mkRatePair 3600 EBps3600;
    mkRatePair 4800 EBps4800;
    mkRatePair 7200 EBps7200;
    mkRatePair 9600 EBps9600;
    mkRatePair 19200 EBps19200;
    mkRatePair 38400 EBps38400;
    mkRatePair 57600 EBps57600;
    mkRatePair 115200 EBps115200;
    mkRatePair 230400 EBps230400;
    mkRatePair 460800 EBps460800;
    mkRatePair 576000 EBps576000;
    mkRatePair 921600 EBps921600;
    mkRatePair 1152000 EBps1152000;
    mkRatePair 4000000 EBps4000000 ].

(** Iterators into a table are positions; the end iterator is its length. *)
Definition deref (tbl : list RatePair) (it : nat) : RatePair :=
  nth it tbl (mkRatePair 0 0).

Definition standardRatesTable_end : nat := List.length standardRatesTable.

(** *** The two searches of QtAlgorithms *)

(** [qFind]: advance [first] while it is not [last] and the entry it points
    to is not [operator==] to [val]. *)
Fixpoint qFind_from (tbl : list RatePair) (first : nat) (val : RatePair) : nat :=
  match tbl with
  | [] => first
  | x :: rest => if RatePair_eq x val then first else qFind_from rest (S first) val
  end.

Definition qFind (tbl : list RatePair) (val : RatePair) : nat :=
  qFind_from tbl 0 val.

(** [qLowerBound]: the loop [while (n > 0)] over the range of [n] entries that
    starts at [begin]. *)
Equations? qLowerBound (tbl : list RatePair) (value : RatePair) (begin n : nat)
  : nat by wf n lt :=
  qLowerBound tbl value begin 0 := begin;
  qLowerBound tbl value begin (S k) :=
    let half := Nat.div2 (S k) in
    let middle := (begin + half)%nat in
    if RatePair_lt (deref tbl middle) value
    then qLowerBound tbl value (middle + 1)%nat (S k - (half + 1))%nat
    else qLowerBound tbl value begin half.
Proof.
  - rewrite Nat.add_1_r. lia.
  - change half with (Nat.div2 (S k)). apply Nat.lt_div2. lia.
Qed.

(** [qBinaryFind]: the lower bound, or the end iterator when the entry there
    is not the one looked for. *)
Definition qBinaryFind (tbl : list RatePair) (value : RatePair) : nat :=
  let last := List.length tbl in
  let it := qLowerBound tbl value 0 last in
  if (it =? last)%nat || RatePair_lt value (deref tbl it) then last else it.

(** *** The lookups of the engine *)

(** Convert symbian-specific enum of baud rate to a numeric value.
    If the desired item is not found then returns 0. *)
Definition rateFromSetting (setting : Z) : Z :=
  let rp := mkRatePair 0 setting in
  let ret := qFind standardRatesTable rp in
  if negb (ret =? standardRatesTable_end)%nat
  then rate (deref standardRatesTable ret) else 0.

(** Convert a numeric value of baud rate to symbian-specific enum.
    If the desired item is not found then returns 0. *)
Definition settingFromRate (r : Z) : Z :=
  let rp := mkRatePair r 0 in
  let ret := qBinaryFind standardRatesTable rp in
  if negb (ret =? standardRatesTable_end)%nat
  then setting (deref standardRatesTable ret) else 0.

(** Returns a list standard values of baud rates. *)
Definition standardRates : list Z := map rate standardRatesTable.

(** Both round trips, checked entry by entry. *)
Definition rate_round_trips (r : Z) : bool :=
  rateFromSetting (settingFromRate r) =? r.

Definition setting_round_trips (s : Z) : bool :=
  settingFromRate (rateFromSetting s) =? s.

(** ** Portable declarations *)

Module SerialPort.
(** Modelled from the spec: the enumerations of class [SerialPort]
    (serialport.h is not under src/).  The engine names the enumerators
    only; an enumeration is an integer, so that a [switch] can reach its
    [default] label.  Data bits are their own count (5 to 8), 4 is no data
    bits value and 3 is no stop bits value the engine accepts. *)
Inductive PortError : Set :=
| NoError
| NoSuchDeviceError
| PermissionDeniedError
| UnsupportedPortOperationError
| UnknownPortError
| IoError.

Definition Input : Z := 1.
Definition Output : Z := 2.
Definition AllDirections : Z := Z.lor Input Output.

Definition Data5 : Z := 5.
Definition Data6 : Z := 6.
Definition Data7 : Z := 7.
Definition Data8 : Z := 8.
Definition UnknownDataBits : Z := -1.

Definition NoParity : Z := 0.
Definition EvenParity : Z := 2.
Definition OddParity : Z := 3.
Definition SpaceParity : Z := 4.
Definition MarkParity : Z := 5.
Definition UnknownParity : Z := -1.

Definition OneStop : Z := 1.
Definition OneAndHalfStop : Z := 3.
Definition TwoStop : Z := 2.
Definition UnknownStopBits : Z := -1.

Definition NoFlowControl : Z := 0.
Definition HardwareControl : Z := 1.
Definition SoftwareControl : Z := 2.
Definition UnknownFlowControl : Z := -1.
End SerialPort.

Import SerialPort.

(** [dptr->options]. *)
Record Options : Set := mkOptions {
  inputRate : Z;
  outputRate : Z;
  dataBits : Z;
  parity : Z;
  stopBits : Z;
  flow : Z;
  restoreSettingsOnClose : bool
}.

(** ** The engine and the platform under it *)

(** Modules names. *)
Definition KRS232ModuleName : string := "ECUART".
Definition KBluetoothModuleName : string := "BTCOMM".
Definition KInfraRedModuleName : string := "IRCOMM".
Definition KACMModuleName : string := "ECACM".

(** The calls the engine makes into the platform. *)
Inductive Call : Set :=
| LoadPhysicalDevice
| LoadLogicalDevice
| StartC32
| ServConnect
| LoadCommModule (name : string)
| CommOpen (name : string)
| CommConfig
| CommSetConfig (c : TCommConfigV01)
| CommClose
| TimerCreateLocal
| TimerHighRes (microseconds : Z)
| TimerCancel
| NotifyDataAvailable
| NotifyOutputEmpty
| NotifyDataAvailableCancel
| NotifyOutputEmptyCancel
| WaitForNRequest
| WaitForRequest.

(** What the platform answers during one operation of the engine: the return
    codes of its calls, and the three request statuses as they stand when
    [User::WaitForNRequest] returns. *)
Record Platform : Type := mkPlatform {
  rLoadPhysicalDevice : Z;
  rLoadLogicalDevice : Z;
  rStartC32 : Z;
  rConnect : Z;
  rLoadCommModule : string -> Z;
  rOpen : string -> Z;
  rConfig : Z;
  rSetConfig : TCommConfigV01 -> Z;
  rCreateLocal : Z;
  timerStatus : Z;
  readStatus : Z;
  writeStatus : Z
}.

(** The members of the engine, the error and options of [dptr], and the state
    of the port the engine talks to. *)
Record Engine : Set := mkEngine {
  error : PortError;                   (* dptr's error *)
  options : Options;                   (* dptr->options *)
  m_descriptor : bool;                 (* the RComm holds the port, exclusively *)
  m_selectTimer : bool;                (* the RTimer has a handle *)
  m_currentSettings : TCommConfigV01;
  m_restoredSettings : TCommConfigV01;
  portConfig : TCommConfigV01;         (* the settings in force on the port *)
  readWatch : bool;                    (* NotifyDataAvailable issued, not cancelled *)
  writeWatch : bool;                   (* NotifyOutputEmpty issued, not cancelled *)
  calls : list Call                    (* platform calls so far, oldest first *)
}.

Definition with_error (x : PortError) (e : Engine) : Engine :=
  mkEngine x (options e) (m_descriptor e) (m_selectTimer e) (m_currentSettings e)
           (m_restoredSettings e) (portConfig e) (readWatch e) (writeWatch e) (calls e).

Definition with_options (x : Options) (e : Engine) : Engine :=
  mkEngine (error e) x (m_descriptor e) (m_selectTimer e) (m_currentSettings e)
           (m_restoredSettings e) (portConfig e) (readWatch e) (writeWatch e) (calls e).

Definition with_descriptor (x : bool) (e : Engine) : Engine :=
  mkEngine (error e) (options e) x (m_selectTimer e) (m_currentSettings e)
           (m_restoredSettings e) (portConfig e) (readWatch e) (writeWatch e) (calls e).

Definition with_selectTimer (x : bool) (e : Engine) : Engine :=
  mkEngine (error e) (options e) (m_descriptor e) x (m_currentSettings e)
           (m_restoredSettings e) (portConfig e) (readWatch e) (writeWatch e) (calls e).

Definition with_currentSettings (x : TCommConfigV01) (e : Engine) : Engine :=
  mkEngine (error e) (options e) (m_descriptor e) (m_selectTimer e) x
           (m_restoredSettings e) (portConfig e) (readWatch e) (writeWatch e) (calls e).

Definition with_restoredSettings (x : TCommConfigV01) (e : Engine) : Engine :=
  mkEngine (error e) (options e) (m_descriptor e) (m_selectTimer e) (m_currentSettings e)
           x (portConfig e) (readWatch e) (writeWatch e) (calls e).

Definition with_portConfig (x : TCommConfigV01) (e : Engine) : Engine :=
  mkEngine (error e) (options e) (m_descriptor e) (m_selectTimer e) (m_currentSettings e)
           (m_restoredSettings e) x (readWatch e) (writeWatch e) (calls e).

Definition with_readWatch (x : bool) (e : Engine) : Engine :=
  mkEngine (error e) (options e) (m_descriptor e) (m_selectTimer e) (m_currentSettings e)
           (m_restoredSettings e) (portConfig e) x (writeWatch e) (calls e).

Definition with_writeWatch (x : bool) (e : Engine) : Engine :=
  mkEngine (error e) (options e) (m_descriptor e) (m_selectTimer e) (m_currentSettings e)
           (m_restoredSettings e) (portConfig e) (readWatch e) x (calls e).

Definition with_calls (x : list Call) (e : Engine) : Engine :=
  mkEngine (error e) (options e) (m_descriptor e) (m_selectTimer e) (m_currentSettings e)
           (m_restoredSettings e) (portConfig e) (readWatch e) (writeWatch e) x.

(** *** Member functions as state transformers *)

Definition M (A : Type) : Type := Engine -> A * Engine.

Definition ret {A : Type} (a : A) : M A := fun e => (a, e).

Definition bind {A B : Type} (m : M A) (k : A -> M B) : M B :=
  fun e => let (a, e') := m e in k a e'.

Definition get : M Engine := fun e => (e, e).

Definition modify (f : Engine -> Engine) : M unit := fun e => (tt, f e).

Declare Scope engine_scope.
Delimit Scope engine_scope with engine.
Notation "x <- m ;; k" := (bind m (fun x => k))
  (at level 100, m at next level, right associativity) : engine_scope.
Notation "m ;; k" := (bind m (fun _ => k))
  (at level 100, right associativity) : engine_scope.
Local Open Scope engine_scope.

Definition call (c : Call) : M unit :=
  modify (fun e => with_calls (calls e ++ [c]) e).

(** [dptr->setError]. *)
Definition setError (x : PortError) : M unit := modify (with_error x).

(** [r != KErrNone]. *)
Definition failed (r : Z) : bool := negb (r =? KErrNone).

(** *** The platform calls *)

Definition RCommServ_Connect (pf : Platform) : M Z :=
  call ServConnect ;; ret (rConnect pf).

Definition RCommServ_LoadCommModule (pf : Platform) (name : string) : M Z :=
  call (LoadCommModule name) ;; ret (rLoadCommModule pf name).

(** [RComm::Open] in [ECommExclusive] mode: on success the descriptor holds
    the port. *)
Definition RComm_Open (pf : Platform) (name : string) : M Z :=
  call (CommOpen name) ;;
  let r := rOpen pf name in
  if failed r then ret r
  else (modify (with_descriptor true) ;; ret r).

(** [RComm::Config]: on success fills its argument with the settings of the
    port. *)
Definition RComm_Config (pf : Platform) (into : TCommConfigV01) : M (Z * TCommConfigV01) :=
  call CommConfig ;;
  e <- get ;;
  let r := rConfig pf in
  if failed r then ret (r, into) else ret (r, portConfig e).

(** [RComm::SetConfig]: on success the settings are in force on the port. *)
Definition RComm_SetConfig (pf : Platform) (c : TCommConfigV01) : M Z :=
  call (CommSetConfig c) ;;
  let r := rSetConfig pf c in
  if failed r then ret r
  else (modify (with_portConfig c) ;; ret r).

(** [RComm::Close]. *)
Definition RComm_Close : M unit :=
  call CommClose ;; modify (with_descriptor false).

Definition RTimer_CreateLocal (pf : Platform) : M Z :=
  call TimerCreateLocal ;;
  let r := rCreateLocal pf in
  if failed r then ret r
  else (modify (with_selectTimer true) ;; ret r).

(** ** The engine *)

(** [QString::contains]. *)
Fixpoint contains (s sub : string) : bool :=
  String.prefix sub s ||
  match s with
  | EmptyString => false
  | String _ rest => contains rest sub
  end.

(** Return false on error load (the build for the device, not for the
    emulator). *)
Definition loadDevices (pf : Platform) : M bool :=
  call LoadPhysicalDevice ;;
  let r := rLoadPhysicalDevice pf in
  if failed r && negb (r =? KErrAlreadyExists) then ret false
  else
    (call LoadLogicalDevice ;;
     let r := rLoadLogicalDevice pf in
     if failed r && negb (r =? KErrAlreadyExists) then ret false
     else
       (call StartC32 ;;
        let r := rStartC32 pf in
        if failed r && negb (r =? KErrAlreadyExists) then ret false
        else ret true)).

(** Updates the TCommConfig structure when changing of any the parameters a
    serial port. *)
Definition updateCommConfig (pf : Platform) : M bool :=
  e <- get ;;
  r <- RComm_SetConfig pf (m_currentSettings e) ;;
  if failed r
  then (setError UnsupportedPortOperationError ;; ret false)
  else ret true.

(** Assignments to the fields of [m_currentSettings()]. *)
Definition set_iRate (x : Z) (c : TCommConfigV01) : TCommConfigV01 :=
  mkCommConfig x (iDataBits c) (iStopBits c) (iParity c) (iHandshake c).
Definition set_iDataBits (x : Z) (c : TCommConfigV01) : TCommConfigV01 :=
  mkCommConfig (iRate c) x (iStopBits c) (iParity c) (iHandshake c).
Definition set_iStopBits (x : Z) (c : TCommConfigV01) : TCommConfigV01 :=
  mkCommConfig (iRate c) (iDataBits c) x (iParity c) (iHandshake c).
Definition set_iParity (x : Z) (c : TCommConfigV01) : TCommConfigV01 :=
  mkCommConfig (iRate c) (iDataBits c) (iStopBits c) x (iHandshake c).
Definition set_iHandshake (x : Z) (c : TCommConfigV01) : TCommConfigV01 :=
  mkCommConfig (iRate c) (iDataBits c) (iStopBits c) (iParity c) x.

Definition edit_currentSettings (f : TCommConfigV01 -> TCommConfigV01) : M unit :=
  modify (fun e => with_currentSettings (f (m_currentSettings e)) e).

Definition unsupported : M bool :=
  setError UnsupportedPortOperationError ;; ret false.

Definition setRate (pf : Platform) (r : Z) (dir : Z) : M bool :=
  if negb (dir =? AllDirections) then unsupported
  else
    let r := settingFromRate r in
    if negb (r =? 0)
    then (edit_currentSettings (set_iRate r) ;; updateCommConfig pf)
    else unsupported.

Definition setDataBits (pf : Platform) (dataBits : Z) : M bool :=
  if dataBits =? Data5 then
    (edit_currentSettings (set_iDataBits EData5) ;; updateCommConfig pf)
  else if dataBits =? Data6 then
    (edit_currentSettings (set_iDataBits EData6) ;; updateCommConfig pf)
  else if dataBits =? Data7 then
    (edit_currentSettings (set_iDataBits EData7) ;; updateCommConfig pf)
  else if dataBits =? Data8 then
    (edit_currentSettings (set_iDataBits EData8) ;; updateCommConfig pf)
  else unsupported.

Definition setParity (pf : Platform) (parity : Z) : M bool :=
  if parity =? NoParity then
    (edit_currentSettings (set_iParity EParityNone) ;; updateCommConfig pf)
  else if parity =? EvenParity then
    (edit_currentSettings (set_iParity EParityEven) ;; updateCommConfig pf)
  else if parity =? OddParity then
    (edit_currentSettings (set_iParity EParityOdd) ;; updateCommConfig pf)
  else if parity =? MarkParity then
    (edit_currentSettings (set_iParity EParityMark) ;; updateCommConfig pf)
  else if parity =? SpaceParity then
    (edit_currentSettings (set_iParity EParitySpace) ;; updateCommConfig pf)
  else unsupported.

Definition setStopBits (pf : Platform) (stopBits : Z) : M bool :=
  if stopBits =? OneStop then
    (edit_currentSettings (set_iStopBits EStop1) ;; updateCommConfig pf)
  else if stopBits =? TwoStop then
    (edit_currentSettings (set_iStopBits EStop2) ;; updateCommConfig pf)
  else unsupported.

Definition setFlowControl (pf : Platform) (flow : Z) : M bool :=
  if flow =? NoFlowControl then
    (edit_currentSettings (set_iHandshake KConfigFailDSR) ;; updateCommConfig pf)
  else if flow =? HardwareControl then
    (edit_currentSettings (set_iHandshake (Z.lor KConfigObeyCTS KConfigFreeRTS)) ;;
     updateCommConfig pf)
  else if flow =? SoftwareControl then
    (edit_currentSettings (set_iHandshake (Z.lor KConfigObeyXoff KConfigSendXoff)) ;;
     updateCommConfig pf)
  else unsupported.

(** *** Detection *)

Definition detectDataBits (c : TCommConfigV01) : Z :=
  if iDataBits c =? EData5 then Data5
  else if iDataBits c =? EData6 then Data6
  else if iDataBits c =? EData7 then Data7
  else if iDataBits c =? EData8 then Data8
  else UnknownDataBits.

Definition detectParity (c : TCommConfigV01) : Z :=
  if iParity c =? EParityNone then NoParity
  else if iParity c =? EParityEven then EvenParity
  else if iParity c =? EParityOdd then OddParity
  else if iParity c =? EParityMark then MarkParity
  else if iParity c =? EParitySpace then SpaceParity
  else UnknownParity.

Definition detectStopBits (c : TCommConfigV01) : Z :=
  if iStopBits c =? EStop1 then OneStop
  else if iStopBits c =? EStop2 then TwoStop
  else UnknownStopBits.

Definition detectFlow (c : TCommConfigV01) : Z :=
  if Z.land (iHandshake c) (Z.lor KConfigObeyXoff KConfigSendXoff)
     =? Z.lor KConfigObeyXoff KConfigSendXoff
  then SoftwareControl
  else if Z.land (iHandshake c) (Z.lor KConfigObeyCTS KConfigFreeRTS)
          =? Z.lor KConfigObeyCTS KConfigFreeRTS
  then HardwareControl
  else if negb (Z.land (iHandshake c) KConfigFailDSR =? 0)
  then NoFlowControl
  else UnknownFlowControl.

(** The options after the five detection steps, read from the settings [c];
    the restore flag is not touched. *)
Definition detected (c : TCommConfigV01) (o : Options) : Options :=
  let inRate := rateFromSetting (iRate c) in
  mkOptions inRate inRate (detectDataBits c) (detectParity c)
            (detectStopBits c) (detectFlow c) (restoreSettingsOnClose o).

(** Attempts to determine the current settings of the serial port, when it
    opened.  It reads [m_currentSettings]. *)
Definition detectDefaultSettings : M unit :=
  modify (fun e => with_options (detected (m_currentSettings e) (options e)) e).

(** *** Opening and closing *)

Definition moduleFor (location : string) : string :=
  if contains location "BTCOMM" then KBluetoothModuleName
  else if contains location "IRCOMM" then KInfraRedModuleName
  else if contains location "ACM" then KACMModuleName
  else KRS232ModuleName.

(** The [switch] of [open] on the return code of [RComm::Open].  The platform
    documents KErrPermissionDenied for a wrong port name or a failed security
    check, KErrLocked for a port that is already open and KErrAccessDenied
    for a driver that cannot open the hardware port. *)
Definition openError (r : Z) : PortError :=
  if r =? KErrPermissionDenied then NoSuchDeviceError
  else if (r =? KErrLocked) || (r =? KErrAccessDenied) then PermissionDeniedError
  else UnknownPortError.

Definition open (pf : Platform) (location : string) : M bool :=
  loaded <- loadDevices pf ;;
  if negb loaded then (setError UnknownPortError ;; ret false)
  else
    (r <- RCommServ_Connect pf ;;
     if failed r then (setError UnknownPortError ;; ret false)
     else
       (r <- RCommServ_LoadCommModule pf (moduleFor location) ;;
        if failed r then (setError UnknownPortError ;; ret false)
        else
          (r <- RComm_Open pf location ;;
           if failed r then (setError (openError r) ;; ret false)
           else
             (* Save current port settings. *)
             (e <- get ;;
              saved <- RComm_Config pf (m_restoredSettings e) ;;
              modify (with_restoredSettings (snd saved)) ;;
              if failed (fst saved) then (setError UnknownPortError ;; ret false)
              else (detectDefaultSettings ;; ret true))))).

Definition close (pf : Platform) (location : string) : M unit :=
  e <- get ;;
  (if restoreSettingsOnClose (options e)
   then (_ <- RComm_SetConfig pf (m_restoredSettings e) ;; ret tt)
   else ret tt) ;;
  RComm_Close.

(** *** The readiness wait *)

(** What [select] hands back: its return value and the two flags behind the
    pointers [selectForRead] and [selectForWrite]. *)
Record Selected : Set := mkSelected {
  result : bool;
  forRead : bool;
  forWrite : bool
}.

(** [select] from the point where the timer, if wanted, has been started.
    [selectForRead] and [selectForWrite] are the flags as the caller left
    them. *)
Definition select_armed (pf : Platform) (checkRead checkWrite : bool)
    (selectForRead selectForWrite : bool) : M Selected :=
  (if checkRead
   then (call NotifyDataAvailable ;; modify (with_readWatch true))
   else ret tt) ;;
  (if checkWrite
   then (call NotifyOutputEmpty ;; modify (with_writeWatch true))
   else ret tt) ;;
  call WaitForNRequest ;;
  (* By timeout? *)
  if negb (timerStatus pf =? KRequestPending)
  then ret (mkSelected false false false)
  else
    (call TimerCancel ;;
     call WaitForRequest ;;
     (* By read? *)
     let selectForRead :=
       if negb (readStatus pf =? KRequestPending) then true else selectForRead in
     (* By write? *)
     let selectForWrite :=
       if negb (writeStatus pf =? KRequestPending) then true else selectForWrite in
     (if checkRead
      then (call NotifyDataAvailableCancel ;; modify (with_readWatch false))
      else ret tt) ;;
     (if checkWrite
      then (call NotifyOutputEmptyCancel ;; modify (with_writeWatch false))
      else ret tt) ;;
     ret (mkSelected true selectForRead selectForWrite)).

Definition select (pf : Platform) (timeout : Z) (checkRead checkWrite : bool)
    (selectForRead selectForWrite : bool) : M Selected :=
  if 0 <? timeout then
    (e <- get ;;
     r <- (if negb (m_selectTimer e) then RTimer_CreateLocal pf else ret KErrNone) ;;
     if failed r then ret (mkSelected false selectForRead selectForWrite)
     else
       (call (TimerHighRes (timeout * 1000)) ;;
        select_armed pf checkRead checkWrite selectForRead selectForWrite))
  else select_armed pf checkRead checkWrite selectForRead selectForWrite.

(** ** Applying a whole portable configuration *)

(** A portable configuration with one rate for both directions. *)
Record PortConfiguration : Set := mkPortConfiguration {
  cfgRate : Z;
  cfgDataBits : Z;
  cfgParity : Z;
  cfgStopBits : Z;
  cfgFlow : Z
}.

(** The five setters in the order of the fields; true when all succeeded. *)
Definition applyConfiguration (pf : Platform) (P : PortConfiguration) : M bool :=
  okRate <- setRate pf (cfgRate P) AllDirections ;;
  okData <- setDataBits pf (cfgDataBits P) ;;
  okParity <- setParity pf (cfgParity P) ;;
  okStop <- setStopBits pf (cfgStopBits P) ;;
  okFlow <- setFlowControl pf (cfgFlow P) ;;
  ret (okRate && okData && okParity && okStop && okFlow).

(** The portable configuration the options hold. *)
Definition configurationOf (o : Options) : PortConfiguration :=
  mkPortConfiguration (inputRate o) (dataBits o) (parity o) (stopBits o) (flow o).

(** Valid enumerants, as lists. *)
Definition validDataBits : list Z := [Data5; Data6; Data7; Data8].
Definition validParity : list Z :=
  [NoParity; EvenParity; OddParity; MarkParity; SpaceParity].
Definition validStopBits : list Z := [OneStop; TwoStop].
Definition validFlow : list Z := [NoFlowControl; HardwareControl; SoftwareControl].

Definition validConfiguration (P : PortConfiguration) : Prop :=
  In (cfgRate P) standardRates /\
  In (cfgDataBits P) validDataBits /\
  In (cfgParity P) validParity /\
  In (cfgStopBits P) validStopBits /\
  In (cfgFlow P) validFlow.

(** ** Sample states *)

Definition defaultConfig : TCommConfigV01 :=
  mkCommConfig EBps9600 EData8 EStop1 EParityNone KConfigFailDSR.

Definition noOptions : Options :=
  mkOptions 0 0 UnknownDataBits UnknownParity UnknownStopBits UnknownFlowControl false.

(** An engine that has opened no port yet; the port is at 9600 8N1. *)
Definition freshEngine : Engine :=
  mkEngine NoError noOptions false false defaultConfig defaultConfig defaultConfig
           false false [].

(** A platform on which every call succeeds and no request has completed. *)
Definition obligingPlatform : Platform :=
  mkPlatform KErrNone KErrNone KErrNone KErrNone (fun _ => KErrNone)
             (fun _ => KErrNone) KErrNone (fun _ => KErrNone) KErrNone
             KRequestPending KRequestPending KRequestPending.

(** ** The five setters as one operation *)

(** A request to one of the setters with its arguments. *)
Inductive Setting : Set :=
| Rate (r dir : Z)
| DataBits (v : Z)
| Parity (v : Z)
| StopBits (v : Z)
| FlowControl (v : Z).

Definition applySetting (pf : Platform) (s : Setting) : M bool :=
  match s with
  | Rate r dir => setRate pf r dir
  | DataBits v => setDataBits pf v
  | Parity v => setParity pf v
  | StopBits v => setStopBits pf v
  | FlowControl v => setFlowControl pf v
  end.

(** The requests the portable model allows: a rate of the table for both
    directions at once, or one of the enumerants of the field. *)
Definition validSetting (s : Setting) : Prop :=
  match s with
  | Rate r dir => dir = AllDirections /\ In r standardRates
  | DataBits v => In v validDataBits
  | Parity v => In v validParity
  | StopBits v => In v validStopBits
  | FlowControl v => In v validFlow
  end.

(** The working copy [c] holds the value of the request, as detection
    reads it. *)
Definition holdsSetting (s : Setting) (c : TCommConfigV01) : Prop :=
  match s with
  | Rate r _ => rateFromSetting (iRate c) = r
  | DataBits v => detectDataBits c = v
  | Parity v => detectParity c = v
  | StopBits v => detectStopBits c = v
  | FlowControl v => detectFlow c = v
  end.

(** ** Proof automation *)

(** Unfolds the state transformers down to pairs. *)
Ltac run :=
  cbv [bind ret get modify call setError unsupported edit_currentSettings
       updateCommConfig RComm_SetConfig RComm_Close RComm_Open RComm_Config
       RCommServ_Connect RCommServ_LoadCommModule RTimer_CreateLocal].

(** Membership in a short list of literals, as a disjunction of equations. *)
Ltac enumerate H :=
  simpl in H;
  repeat match type of H with
         | _ \/ _ => destruct H as [H | H]
         | False => contradiction
         end;
  try subst.

(** Runs through the tests of a [switch] on [v] when [v] is none of its
    labels. *)
Ltac outside H v :=
  repeat match goal with
         | |- context [v =? ?k] =>
           destruct (Z.eqb_spec v k) as [?Heq | ?Hne];
           [exfalso; apply H; simpl; rewrite Heq; tauto |]
         end.

(** ** Definitions for the statements *)

(** The positions of the handshake bits. *)
Definition bitObeyXoff : Z := 0.
Definition bitSendXoff : Z := 1.
Definition bitObeyCTS : Z := 2.
Definition bitFailDSR : Z := 5.
Definition bitFreeRTS : Z := 8.

(** Settings none of whose fields has a portable counterpart. *)
Definition exoticConfig : TCommConfigV01 := mkCommConfig 1000 9 7 12 0.

Definition exoticEngine : Engine := with_currentSettings exoticConfig freshEngine.

(** The steps of [open] from the call of [RComm::Open] on. *)
Definition openPort (pf : Platform) (location : string) : M bool :=
  r <- RComm_Open pf location ;;
  if failed r then (setError (openError r) ;; ret false)
  else
    (e <- get ;;
     saved <- RComm_Config pf (m_restoredSettings e) ;;
     modify (with_restoredSettings (snd saved)) ;;
     if failed (fst saved) then (setError UnknownPortError ;; ret false)
     else (detectDefaultSettings ;; ret true)).

(** The calls of [open] before [RComm::Open] when each of them succeeds. *)
Definition openPrelude (location : string) : list Call :=
  [LoadPhysicalDevice; LoadLogicalDevice; StartC32; ServConnect;
   LoadCommModule (moduleFor location)].

(** A platform on which everything succeeds except [RComm::Open], which
    returns [r]. *)
Definition openAnswers (r : Z) : Platform :=
  mkPlatform KErrNone KErrNone KErrNone KErrNone (fun _ => KErrNone)
             (fun _ => r) KErrNone (fun _ => KErrNone) KErrNone
             KRequestPending KRequestPending KRequestPending.

(** A platform on which everything succeeds except [RComm::Config], which
    returns [r]. *)
Definition configAnswers (r : Z) : Platform :=
  mkPlatform KErrNone KErrNone KErrNone KErrNone (fun _ => KErrNone)
             (fun _ => KErrNone) r (fun _ => KErrNone) KErrNone
             KRequestPending KRequestPending KRequestPending.

(** The error codes that by their names report a refused access. *)
Definition permissionClass (r : Z) : Prop :=
  r = KErrPermissionDenied \/ r = KErrAccessDenied \/ r = KErrLocked.

(** A platform on which the timer request has completed when the wait
    returns, and the two notifications are still pending. *)
Definition timerFires : Platform :=
  mkPlatform KErrNone KErrNone KErrNone KErrNone (fun _ => KErrNone)
             (fun _ => KErrNone) KErrNone (fun _ => KErrNone) KErrNone
             KErrNone KRequestPending KRequestPending.

(** A platform on which data has arrived when the wait returns, the timer
    and the write notification still pending. *)
Definition readFires : Platform :=
  mkPlatform KErrNone KErrNone KErrNone KErrNone (fun _ => KErrNone)
             (fun _ => KErrNone) KErrNone (fun _ => KErrNone) KErrNone
             KRequestPending KErrNone KRequestPending.

(** The calls that register the notifications asked for. *)
Definition watchCalls (checkRead checkWrite : bool) : list Call :=
  (if checkRead then [NotifyDataAvailable] else [])
  ++ (if checkWrite then [NotifyOutputEmpty] else []).

(** The configuration with the first rate of the table. *)
Definition slowest : PortConfiguration :=
  mkPortConfiguration 50 Data8 NoParity OneStop NoFlowControl.

(** ** Signal lines *)

Module D32Signals.
End D32Signals.

Import D32Signals.




(** ** Further definitions for the statements *)

(** A return code [loadDevices] takes for a success. *)
Definition loaded (r : Z) : Prop := r = KErrNone \/ r = KErrAlreadyExists.

(** Every step of [open] before [RComm::Open] succeeds. *)
Definition preludeSucceeds (pf : Platform) (location : string) : Prop :=
  loaded (rLoadPhysicalDevice pf) /\
  loaded (rLoadLogicalDevice pf) /\
  loaded (rStartC32 pf) /\
  rConnect pf = KErrNone /\
  rLoadCommModule pf (moduleFor location) = KErrNone.

(** A run of setter calls, each with the answers of the platform at its
    time. *)
Fixpoint applySettings (requests : list (Platform * Setting)) (e : Engine) : Engine :=
  match requests with
  | [] => e
  | (pf, s) :: rest => applySettings rest (snd (applySetting pf s e))
  end.

(** The calls that cancel the notifications asked for. *)
Definition cancelCalls (checkRead checkWrite : bool) : list Call :=
  (if checkRead then [NotifyDataAvailableCancel] else [])
  ++ (if checkWrite then [NotifyOutputEmptyCancel] else []).

(** [select] gets as far as the wait: no timer is wanted, or the timer has a
    handle, or the handle can be created. *)
Definition timerReady (pf : Platform) (timeout : Z) (e : Engine) : Prop :=
  timeout <= 0 \/ m_selectTimer e = true \/ rCreateLocal pf = KErrNone.

(** The table has the entry [x] at position [j]. *)
Definition entryAt (tbl : list RatePair) (j : nat) (x : RatePair) : Prop :=
  nth_error tbl j = Some x.

(** A platform on which the port refuses every push of settings. *)
Definition pushRefused : Platform :=
  mkPlatform KErrNone KErrNone KErrNone KErrNone (fun _ => KErrNone)
             (fun _ => KErrNone) KErrNone (fun _ => KErrNotSupported) KErrNone
             KRequestPending KRequestPending KRequestPending.

(** A platform on which the timer cannot be created. *)
Definition timerRefused : Platform :=
  mkPlatform KErrNone KErrNone KErrNone KErrNone (fun _ => KErrNone)
             (fun _ => KErrNone) KErrNone (fun _ => KErrNone) KErrGeneral
             KRequestPending KRequestPending KRequestPending.

(** A platform on which the logical device driver does not load. *)
Definition driverMissing : Platform :=
  mkPlatform KErrNone KErrNotFound KErrNone KErrNone (fun _ => KErrNone)
             (fun _ => KErrNone) KErrNone (fun _ => KErrNone) KErrNone
             KRequestPending KRequestPending KRequestPending.

(** An engine whose owner asked for the settings to be restored on close. *)
Definition restoringEngine : Engine :=
  with_options (mkOptions 0 0 UnknownDataBits UnknownParity UnknownStopBits
                          UnknownFlowControl true) freshEngine.


(** Splits a run of [select] by the sign of the timeout, the timer handle,
    the two answers of the platform that decide its branches, and the two
    requests. *)
Ltac select_cases pf timeout e checkRead checkWrite :=
  unfold select, select_armed, timerReady, watchCalls, cancelCalls in *; run;
  cbv [failed] in *;
  destruct (0 <? timeout) eqn:Hpos;
  destruct (m_selectTimer e) eqn:Htimer;
  destruct (rCreateLocal pf =? KErrNone) eqn:Hcreate;
  destruct (timerStatus pf =? KRequestPending) eqn:Hpending;
  destruct checkRead, checkWrite; simpl in *;
  rewrite ?Hcreate, ?Hpending; simpl;
  rewrite ?Hcreate, ?Hpending; simpl;
  repeat rewrite <- app_assoc; simpl;
  repeat match goal with
         | H : (_ <? _) = true |- _ => apply Z.ltb_lt in H
         | H : (_ <? _) = false |- _ => apply Z.ltb_ge in H
         | H : (_ =? _) = true |- _ => apply Z.eqb_eq in H
         | H : (_ =? _) = false |- _ => apply Z.eqb_neq in H
         end.

(** * Properties *)

(** ** The searches *)

Example settingFromRate_9600 : settingFromRate 9600 = EBps9600.
Proof. reflexivity. Qed.

Example rateFromSetting_24 : rateFromSetting EBps921600 = 921600.
Proof. reflexivity. Qed.

Example settingFromRate_4000000 : settingFromRate 4000000 = EBps4000000.
Proof. vm_compute. reflexivity. Qed.

(** The loop invariant of [qLowerBound] that needs no sorted table: the
    iterator returned is the end of the range, or points at an entry that is
    not below the value. *)
Lemma qLowerBound_stops (tbl : list RatePair) (value : RatePair) (begin n : nat) :
  qLowerBound tbl value begin n = (begin + n)%nat \/
  ((qLowerBound tbl value begin n < begin + n)%nat /\
   RatePair_lt (deref tbl (qLowerBound tbl value begin n)) value = false).
Proof.
  funelim (qLowerBound tbl value begin n).
  - left. lia.
  - assert (Hhalf : (Nat.div2 (S k) < S k)%nat) by (apply Nat.lt_div2; lia).
    clear Heqcall.
    destruct (RatePair_lt (deref tbl (begin + Nat.div2 (S k))) value) eqn:Hcmp.
    + destruct H as [Hend | [Hlt Hge]].
      * left. lia.
      * right. split; [lia | exact Hge].
    + destruct H0 as [Hend | [Hlt Hge]].
      * right. rewrite Hend. split; [lia | exact Hcmp].
      * right. split; [lia | exact Hge].
Qed.

(** A hit of [qBinaryFind] is a position of the table whose rate is the one
    looked for, sorted table or not. *)
Lemma qBinaryFind_hit (tbl : list RatePair) (value : RatePair) :
  qBinaryFind tbl value <> List.length tbl ->
  (qBinaryFind tbl value < List.length tbl)%nat /\
  rate (deref tbl (qBinaryFind tbl value)) = rate value.
Proof.
  unfold qBinaryFind. cbv zeta.
  destruct (qLowerBound_stops tbl value 0 (List.length tbl)) as [Hend | [Hlt Hge]].
  - rewrite Hend. simpl. rewrite Nat.eqb_refl. simpl. congruence.
  - set (it := qLowerBound tbl value 0 (List.length tbl)) in *.
    destruct (Nat.eqb_spec it (List.length tbl)) as [He | Hne]; simpl.
    + congruence.
    + destruct (RatePair_lt value (deref tbl it)) eqn:Hgt; [congruence |].
      intros _. split; [lia |].
      unfold RatePair_lt in Hge, Hgt.
      apply Z.ltb_ge in Hge. apply Z.ltb_ge in Hgt. lia.
Qed.

Lemma deref_In (tbl : list RatePair) (it : nat) :
  (it < List.length tbl)%nat -> In (deref tbl it) tbl.
Proof. intros H. unfold deref. apply nth_In. exact H. Qed.

(** A rate that is not in the table has no setting. *)
Lemma settingFromRate_absent (r : Z) :
  ~ In r standardRates -> settingFromRate r = 0.
Proof.
  intros Hnot. unfold settingFromRate. cbv zeta.
  unfold standardRatesTable_end.
  destruct (Nat.eqb_spec (qBinaryFind standardRatesTable (mkRatePair r 0))
              (List.length standardRatesTable)) as [He | Hne]; simpl.
  - reflexivity.
  - exfalso. apply Hnot.
    destruct (qBinaryFind_hit _ _ Hne) as [Hlt Hrate].
    simpl in Hrate. rewrite <- Hrate.
    unfold standardRates. apply in_map. apply deref_In. exact Hlt.
Qed.

(** [qFind] returns a position of the table or its end. *)
Lemma qFind_from_le (tbl : list RatePair) (first : nat) (val : RatePair) :
  (first <= qFind_from tbl first val <= first + List.length tbl)%nat.
Proof.
  revert first. induction tbl as [| x rest IH]; intros first; simpl.
  - lia.
  - destruct (RatePair_eq x val); [lia |].
    specialize (IH (S first)). lia.
Qed.

(** A setting that is not in the table has rate 0. *)
Lemma qFind_from_absent (tbl : list RatePair) (first : nat) (val : RatePair) :
  ~ In (setting val) (map setting tbl) ->
  qFind_from tbl first val = (first + List.length tbl)%nat.
Proof.
  revert first. induction tbl as [| x rest IH]; intros first Hnot; simpl.
  - lia.
  - unfold RatePair_eq at 1.
    destruct (Z.eqb_spec (setting x) (setting val)) as [He | Hne].
    + exfalso. apply Hnot. left. exact He.
    + rewrite IH; [lia |]. intros Hin. apply Hnot. right. exact Hin.
Qed.

Lemma rateFromSetting_absent (s : Z) :
  ~ In s (map setting standardRatesTable) -> rateFromSetting s = 0.
Proof.
  intros Hnot. unfold rateFromSetting, qFind. cbv zeta.
  rewrite qFind_from_absent by exact Hnot.
  unfold standardRatesTable_end. simpl. reflexivity.
Qed.

Lemma rate_round_trips_table : forallb rate_round_trips standardRates = true.
Proof. vm_compute. reflexivity. Qed.

Lemma setting_round_trips_table :
  forallb setting_round_trips (map setting standardRatesTable) = true.
Proof. vm_compute. reflexivity. Qed.

(** ** Properties of the rate table *)

(** C5: over the rate table both lookup directions round-trip:
    [settingFromRate] then [rateFromSetting] gives back every rate of the
    table, and [rateFromSetting] then [settingFromRate] gives back every
    setting of the table. *)
Theorem rate_table_round_trip :
  (forall R, In R standardRates -> rateFromSetting (settingFromRate R) = R) /\
  (forall T, In T (map setting standardRatesTable) ->
             settingFromRate (rateFromSetting T) = T).
Proof.
  split.
  - intros R HR.
    pose proof (proj1 (forallb_forall _ _) rate_round_trips_table R HR) as H.
    apply Z.eqb_eq. exact H.
  - intros T HT.
    pose proof (proj1 (forallb_forall _ _) setting_round_trips_table T HT) as H.
    apply Z.eqb_eq. exact H.
Qed.

Lemma rate_table_round_trip_witness :
  rateFromSetting (settingFromRate 9600) = 9600 /\
  settingFromRate (rateFromSetting EBps921600) = EBps921600.
Proof.
  split.
  - apply (proj1 rate_table_round_trip 9600). vm_compute. tauto.
  - apply (proj2 rate_table_round_trip EBps921600). vm_compute. tauto.
Defined.

(** C9: the rates returned by [standardRates] are strictly ascending and no
    rate occurs twice; the table is sorted by [RatePair::operator<], which is
    what the binary search of [settingFromRate] relies on. *)
Theorem standardRates_strictly_ascending :
  StronglySorted Z.lt standardRates /\
  NoDup standardRates /\
  StronglySorted (fun a b => RatePair_lt a b = true) standardRatesTable.
Proof.
  split; [| split].
  - unfold standardRates, standardRatesTable. simpl.
    repeat (apply SSorted_cons; [| repeat (apply Forall_cons; [lia |]); apply Forall_nil]).
    apply SSorted_nil.
  - unfold standardRates, standardRatesTable. simpl.
    repeat (apply NoDup_cons; [simpl; intuition lia |]).
    apply NoDup_nil.
  - unfold standardRatesTable.
    repeat (apply SSorted_cons;
            [| repeat (apply Forall_cons; [reflexivity |]); apply Forall_nil]).
    apply SSorted_nil.
Qed.

(** ** The setters *)

Example moduleFor_bluetooth : moduleFor "BTCOMM::0" = KBluetoothModuleName.
Proof. reflexivity. Qed.

Example moduleFor_usb : moduleFor "ACM::1" = KACMModuleName.
Proof. reflexivity. Qed.

Example moduleFor_default : moduleFor "COMM::0" = KRS232ModuleName.
Proof. reflexivity. Qed.

Example open_fresh :
  fst (open obligingPlatform "COMM::0" freshEngine) = true.
Proof. reflexivity. Qed.

(** After the working copy is edited, [updateCommConfig] makes one call, with
    the edited copy, and leaves the copy alone. *)
Lemma edit_then_update (pf : Platform) (f : TCommConfigV01 -> TCommConfigV01)
    (e : Engine) :
  let e' := snd ((edit_currentSettings f ;; updateCommConfig pf) e) in
  m_currentSettings e' = f (m_currentSettings e) /\
  calls e' = calls e ++ [CommSetConfig (f (m_currentSettings e))] /\
  fst ((edit_currentSettings f ;; updateCommConfig pf) e)
  = negb (failed (rSetConfig pf (f (m_currentSettings e)))).
Proof.
  run. cbv [failed]. simpl.
  destruct (rSetConfig pf (f (m_currentSettings e)) =? KErrNone) eqn:Hr;
    simpl; rewrite ?Hr; simpl; auto.
Qed.

Lemma unsupported_run (e : Engine) :
  unsupported e = (false, with_error UnsupportedPortOperationError e).
Proof. reflexivity. Qed.

(** The code's own test of a rate: the table lookup gives a non-zero
    setting. *)
Lemma setRate_accepts (pf : Platform) (r : Z) (e : Engine) :
  settingFromRate r <> 0 ->
  setRate pf r AllDirections e
  = (edit_currentSettings (set_iRate (settingFromRate r)) ;; updateCommConfig pf) e.
Proof.
  intros Hset. unfold setRate. simpl.
  destruct (Z.eqb_spec (settingFromRate r) 0) as [He | Hne]; [contradiction |].
  reflexivity.
Qed.

Lemma setRate_rejects (pf : Platform) (r dir : Z) (e : Engine) :
  dir <> AllDirections \/ settingFromRate r = 0 ->
  setRate pf r dir e = (false, with_error UnsupportedPortOperationError e).
Proof.
  intros H. unfold setRate.
  destruct (Z.eqb_spec dir AllDirections) as [Hd | Hd]; simpl.
  - destruct H as [H | H]; [contradiction |].
    rewrite H. reflexivity.
  - reflexivity.
Qed.

(** Every setting of the table is found again by the linear search. *)
Lemma settingFromRate_found (r : Z) :
  settingFromRate r <> 0 -> rateFromSetting (settingFromRate r) = r.
Proof.
  intros Hset.
  destruct (in_dec Z.eq_dec r standardRates) as [Hin | Hnot].
  - apply (proj1 rate_table_round_trip). exact Hin.
  - exfalso. apply Hset. apply settingFromRate_absent. exact Hnot.
Qed.

Lemma settingFromRate_in_table (r : Z) :
  settingFromRate r <> 0 -> In r standardRates.
Proof.
  intros Hset.
  destruct (in_dec Z.eq_dec r standardRates) as [Hin | Hnot]; [exact Hin |].
  exfalso. apply Hset. apply settingFromRate_absent. exact Hnot.
Qed.

(** A setter either rejects the request and touches nothing but the error, or
    edits the working copy and then pushes it; the second happens for valid
    requests only, and the edit stores the requested value. *)
Lemma applySetting_cases (pf : Platform) (s : Setting) (e : Engine) :
  applySetting pf s e = (false, with_error UnsupportedPortOperationError e) \/
  exists f,
    applySetting pf s e = (edit_currentSettings f ;; updateCommConfig pf) e /\
    validSetting s /\
    holdsSetting s (f (m_currentSettings e)).
Proof.
  destruct s as [r dir | v | v | v | v]; simpl.
  - destruct (Z.eq_dec dir AllDirections) as [Hd | Hd].
    + destruct (Z.eq_dec (settingFromRate r) 0) as [Hs | Hs].
      * left. apply setRate_rejects. right. exact Hs.
      * right. exists (set_iRate (settingFromRate r)). subst dir.
        split; [apply setRate_accepts; exact Hs |].
        split; [split; [reflexivity | apply settingFromRate_in_table; exact Hs] |].
        simpl. apply settingFromRate_found. exact Hs.
    + left. apply setRate_rejects. left. exact Hd.
  - unfold setDataBits.
    destruct (Z.eqb_spec v Data5);
      [subst; right; exists (set_iDataBits EData5); simpl; tauto |].
    destruct (Z.eqb_spec v Data6);
      [subst; right; exists (set_iDataBits EData6); simpl; tauto |].
    destruct (Z.eqb_spec v Data7);
      [subst; right; exists (set_iDataBits EData7); simpl; tauto |].
    destruct (Z.eqb_spec v Data8);
      [subst; right; exists (set_iDataBits EData8); simpl; tauto |].
    left. reflexivity.
  - unfold setParity.
    destruct (Z.eqb_spec v NoParity);
      [subst; right; exists (set_iParity EParityNone); simpl; tauto |].
    destruct (Z.eqb_spec v EvenParity);
      [subst; right; exists (set_iParity EParityEven); simpl; tauto |].
    destruct (Z.eqb_spec v OddParity);
      [subst; right; exists (set_iParity EParityOdd); simpl; tauto |].
    destruct (Z.eqb_spec v MarkParity);
      [subst; right; exists (set_iParity EParityMark); simpl; tauto |].
    destruct (Z.eqb_spec v SpaceParity);
      [subst; right; exists (set_iParity EParitySpace); simpl; tauto |].
    left. reflexivity.
  - unfold setStopBits.
    destruct (Z.eqb_spec v OneStop);
      [subst; right; exists (set_iStopBits EStop1); simpl; tauto |].
    destruct (Z.eqb_spec v TwoStop);
      [subst; right; exists (set_iStopBits EStop2); simpl; tauto |].
    left. reflexivity.
  - unfold setFlowControl.
    destruct (Z.eqb_spec v NoFlowControl);
      [subst; right; exists (set_iHandshake KConfigFailDSR); simpl; tauto |].
    destruct (Z.eqb_spec v HardwareControl);
      [subst; right;
       exists (set_iHandshake (Z.lor KConfigObeyCTS KConfigFreeRTS)); simpl; tauto |].
    destruct (Z.eqb_spec v SoftwareControl);
      [subst; right;
       exists (set_iHandshake (Z.lor KConfigObeyXoff KConfigSendXoff)); simpl; tauto |].
    left. reflexivity.
Qed.

(** An invalid request is rejected. *)
Lemma applySetting_invalid (pf : Platform) (s : Setting) (e : Engine) :
  ~ validSetting s ->
  applySetting pf s e = (false, with_error UnsupportedPortOperationError e).
Proof.
  intros Hinv.
  destruct (applySetting_cases pf s e) as [Hrej | [f [_ [Hval _]]]].
  - exact Hrej.
  - contradiction.
Qed.

(** C6: every setter fails with UnsupportedPortOperationError and returns
    false on an invalid request: [setRate] for a rate that is not in the table
    or a direction other than both at once, [setDataBits] outside 5 to 8,
    [setParity] outside the five kinds, [setStopBits] outside one and two,
    [setFlowControl] outside none, hardware and software. *)
Theorem setters_reject_invalid (pf : Platform) (e : Engine) :
  (forall r dir, dir <> AllDirections \/ ~ In r standardRates ->
     fst (setRate pf r dir e) = false /\
     error (snd (setRate pf r dir e)) = UnsupportedPortOperationError) /\
  (forall v, ~ In v validDataBits ->
     fst (setDataBits pf v e) = false /\
     error (snd (setDataBits pf v e)) = UnsupportedPortOperationError) /\
  (forall v, ~ In v validParity ->
     fst (setParity pf v e) = false /\
     error (snd (setParity pf v e)) = UnsupportedPortOperationError) /\
  (forall v, ~ In v validStopBits ->
     fst (setStopBits pf v e) = false /\
     error (snd (setStopBits pf v e)) = UnsupportedPortOperationError) /\
  (forall v, ~ In v validFlow ->
     fst (setFlowControl pf v e) = false /\
     error (snd (setFlowControl pf v e)) = UnsupportedPortOperationError).
Proof.
  repeat match goal with |- _ /\ _ => split end.
  - intros r dir H.
    change (setRate pf r dir e) with (applySetting pf (Rate r dir) e).
    rewrite applySetting_invalid by (intros [Hd Hr]; destruct H; contradiction).
    split; reflexivity.
  - intros v H.
    change (setDataBits pf v e) with (applySetting pf (DataBits v) e).
    rewrite applySetting_invalid by exact H. split; reflexivity.
  - intros v H.
    change (setParity pf v e) with (applySetting pf (Parity v) e).
    rewrite applySetting_invalid by exact H. split; reflexivity.
  - intros v H.
    change (setStopBits pf v e) with (applySetting pf (StopBits v) e).
    rewrite applySetting_invalid by exact H. split; reflexivity.
  - intros v H.
    change (setFlowControl pf v e) with (applySetting pf (FlowControl v) e).
    rewrite applySetting_invalid by exact H. split; reflexivity.
Qed.

Lemma setters_reject_invalid_witness :
  (fst (setRate obligingPlatform 9600 Input freshEngine) = false /\
   error (snd (setRate obligingPlatform 9600 Input freshEngine))
   = UnsupportedPortOperationError) /\
  (fst (setRate obligingPlatform 12345 AllDirections freshEngine) = false /\
   error (snd (setRate obligingPlatform 12345 AllDirections freshEngine))
   = UnsupportedPortOperationError) /\
  (fst (setDataBits obligingPlatform 4 freshEngine) = false /\
   error (snd (setDataBits obligingPlatform 4 freshEngine))
   = UnsupportedPortOperationError) /\
  (fst (setParity obligingPlatform 1 freshEngine) = false /\
   error (snd (setParity obligingPlatform 1 freshEngine))
   = UnsupportedPortOperationError) /\
  (fst (setStopBits obligingPlatform OneAndHalfStop freshEngine) = false /\
   error (snd (setStopBits obligingPlatform OneAndHalfStop freshEngine))
   = UnsupportedPortOperationError) /\
  (fst (setFlowControl obligingPlatform 7 freshEngine) = false /\
   error (snd (setFlowControl obligingPlatform 7 freshEngine))
   = UnsupportedPortOperationError).
Proof.
  destruct (setters_reject_invalid obligingPlatform freshEngine)
    as [HR [HD [HP [HS HF]]]].
  split; [| split; [| split; [| split; [| split]]]].
  - apply HR. left. vm_compute. discriminate.
  - apply HR. right. vm_compute. intuition discriminate.
  - apply HD. vm_compute. intuition discriminate.
  - apply HP. vm_compute. intuition discriminate.
  - apply HS. vm_compute. intuition discriminate.
  - apply HF. vm_compute. intuition discriminate.
Defined.

(** C10: a setter whose validation fails returns false, leaves the working
    native configuration and the port as they were and makes no platform call;
    a call of [SetConfig] is made only for a valid request, after the working
    copy has taken the requested value, and it pushes that copy. *)
Theorem setters_validate_before_push (pf : Platform) (s : Setting) (e : Engine) :
  let ok := fst (applySetting pf s e) in
  let e' := snd (applySetting pf s e) in
  (~ validSetting s ->
     ok = false /\
     m_currentSettings e' = m_currentSettings e /\
     portConfig e' = portConfig e /\
     calls e' = calls e) /\
  ((ok = false /\
    m_currentSettings e' = m_currentSettings e /\
    portConfig e' = portConfig e /\
    calls e' = calls e) \/
   (validSetting s /\
    holdsSetting s (m_currentSettings e') /\
    calls e' = calls e ++ [CommSetConfig (m_currentSettings e')])).
Proof.
  intros ok e'. subst ok e'. split.
  - intros Hinv. rewrite applySetting_invalid by exact Hinv. simpl. auto.
  - destruct (applySetting_cases pf s e) as [Hrej | [f [Hrun [Hval Hholds]]]].
    + left. rewrite Hrej. simpl. auto.
    + right. rewrite Hrun.
      destruct (edit_then_update pf f e) as [Hcur [Hcalls _]].
      rewrite Hcur. auto.
Qed.

Lemma setters_validate_before_push_witness :
  fst (applySetting obligingPlatform (StopBits OneAndHalfStop) freshEngine) = false /\
  m_currentSettings
    (snd (applySetting obligingPlatform (StopBits OneAndHalfStop) freshEngine))
  = m_currentSettings freshEngine /\
  portConfig
    (snd (applySetting obligingPlatform (StopBits OneAndHalfStop) freshEngine))
  = portConfig freshEngine /\
  calls (snd (applySetting obligingPlatform (StopBits OneAndHalfStop) freshEngine))
  = calls freshEngine.
Proof.
  apply (proj1 (setters_validate_before_push obligingPlatform
                  (StopBits OneAndHalfStop) freshEngine)).
  vm_compute. intuition discriminate.
Defined.

Example setDataBits_pushes_once :
  calls (snd (setDataBits obligingPlatform Data7 freshEngine))
  = [CommSetConfig (set_iDataBits EData7 defaultConfig)].
Proof. reflexivity. Qed.

(** ** Closing *)

(** C8: [close] always releases the descriptor; when restore-on-close is
    requested it first writes the settings saved at open time back to the
    port, and the outcome of that write changes neither the release of the
    descriptor nor the calls made. *)
Theorem close_always_releases (pf : Platform) (location : string) (e : Engine) :
  let e' := snd (close pf location e) in
  m_descriptor e' = false /\
  calls e' = calls e
             ++ (if restoreSettingsOnClose (options e)
                 then [CommSetConfig (m_restoredSettings e)] else [])
             ++ [CommClose] /\
  portConfig e' = (if restoreSettingsOnClose (options e)
                      && negb (failed (rSetConfig pf (m_restoredSettings e)))
                   then m_restoredSettings e else portConfig e).
Proof.
  unfold close. run. cbv [failed]. simpl.
  destruct (restoreSettingsOnClose (options e)); simpl.
  - destruct (rSetConfig pf (m_restoredSettings e) =? KErrNone); simpl.
    + rewrite <- app_assoc. auto.
    + rewrite <- app_assoc. auto.
  - auto.
Qed.

(** ** Detection *)

(** A mask of two bits is contained in [h] exactly when both bits are set. *)
Lemma land_two_bits (h i j : Z) :
  0 <= i -> 0 <= j ->
  (Z.land h (Z.lor (2 ^ i) (2 ^ j)) =? Z.lor (2 ^ i) (2 ^ j))
  = Z.testbit h i && Z.testbit h j.
Proof.
  intros Hi Hj.
  destruct (Z.eqb_spec (Z.land h (Z.lor (2 ^ i) (2 ^ j))) (Z.lor (2 ^ i) (2 ^ j)))
    as [Heq | Hne].
  - symmetry. apply andb_true_intro. split.
    + assert (Hb : Z.testbit (Z.land h (Z.lor (2 ^ i) (2 ^ j))) i = true).
      { rewrite Heq, Z.lor_spec, Z.pow2_bits_true by exact Hi. reflexivity. }
      rewrite Z.land_spec in Hb. apply andb_prop in Hb. tauto.
    + assert (Hb : Z.testbit (Z.land h (Z.lor (2 ^ i) (2 ^ j))) j = true).
      { rewrite Heq, Z.lor_spec, (Z.pow2_bits_true j) by exact Hj.
        apply orb_true_r. }
      rewrite Z.land_spec in Hb. apply andb_prop in Hb. tauto.
  - symmetry. apply not_true_is_false. intros Hboth.
    apply andb_prop in Hboth. destruct Hboth as [Hbi Hbj].
    apply Hne. apply Z.bits_inj'. intros n Hn.
    rewrite Z.land_spec, Z.lor_spec.
    rewrite !Z.pow2_bits_eqb by assumption.
    destruct (Z.eqb_spec i n) as [-> | _]; simpl.
    + rewrite Hbi. reflexivity.
    + destruct (Z.eqb_spec j n) as [-> | _]; simpl.
      * rewrite Hbj. reflexivity.
      * apply andb_false_r.
Qed.

(** The C test of one bit. *)
Lemma land_one_bit (h i : Z) :
  0 <= i -> negb (Z.land h (2 ^ i) =? 0) = Z.testbit h i.
Proof.
  intros Hi.
  destruct (Z.eqb_spec (Z.land h (2 ^ i)) 0) as [Heq | Hne]; simpl.
  - assert (Hb : Z.testbit (Z.land h (2 ^ i)) i = false).
    { rewrite Heq. apply Z.bits_0. }
    rewrite Z.land_spec, Z.pow2_bits_true, andb_true_r in Hb by exact Hi.
    symmetry. exact Hb.
  - symmetry. apply not_false_is_true. intros Hb. apply Hne.
    apply Z.bits_inj'. intros n Hn.
    rewrite Z.land_spec, Z.bits_0, Z.pow2_bits_eqb by exact Hi.
    destruct (Z.eqb_spec i n) as [-> | _].
    + rewrite Hb. reflexivity.
    + apply andb_false_r.
Qed.

(** Flow detection by the bits of the handshake word. *)
Lemma detectFlow_bits (c : TCommConfigV01) :
  detectFlow c =
  if Z.testbit (iHandshake c) bitObeyXoff && Z.testbit (iHandshake c) bitSendXoff
  then SoftwareControl
  else if Z.testbit (iHandshake c) bitObeyCTS && Z.testbit (iHandshake c) bitFreeRTS
  then HardwareControl
  else if Z.testbit (iHandshake c) bitFailDSR
  then NoFlowControl
  else UnknownFlowControl.
Proof.
  unfold detectFlow.
  change KConfigObeyXoff with (2 ^ bitObeyXoff).
  change KConfigSendXoff with (2 ^ bitSendXoff).
  change KConfigObeyCTS with (2 ^ bitObeyCTS).
  change KConfigFreeRTS with (2 ^ bitFreeRTS).
  change KConfigFailDSR with (2 ^ bitFailDSR).
  rewrite !land_two_bits, land_one_bit by (vm_compute; discriminate).
  reflexivity.
Qed.

(** C7: detection of the portable settings is a total function that records
    no error and makes no call; a native value with no known mapping gives
    the Unknown tag of its field (and rate 0 for a setting that is not in the
    table); flow control is decided by the software bit pair first, then the
    hardware bit pair, then the fail-on-DSR bit, and is Unknown otherwise. *)
Theorem detection_total_with_precedence (e : Engine) :
  let c := m_currentSettings e in
  let e' := snd (detectDefaultSettings e) in
  e' = with_options (detected c (options e)) e /\
  error e' = error e /\
  calls e' = calls e /\
  (~ In (iRate c) (map setting standardRatesTable) ->
     inputRate (options e') = 0 /\ outputRate (options e') = 0) /\
  (~ In (iDataBits c) [EData5; EData6; EData7; EData8] ->
     dataBits (options e') = UnknownDataBits) /\
  (~ In (iParity c) [EParityNone; EParityEven; EParityOdd; EParityMark; EParitySpace] ->
     parity (options e') = UnknownParity) /\
  (~ In (iStopBits c) [EStop1; EStop2] ->
     stopBits (options e') = UnknownStopBits) /\
  flow (options e') =
    (if Z.testbit (iHandshake c) bitObeyXoff && Z.testbit (iHandshake c) bitSendXoff
     then SoftwareControl
     else if Z.testbit (iHandshake c) bitObeyCTS && Z.testbit (iHandshake c) bitFreeRTS
     then HardwareControl
     else if Z.testbit (iHandshake c) bitFailDSR
     then NoFlowControl
     else UnknownFlowControl).
Proof.
  intros c e'. subst c e'. unfold detectDefaultSettings. run. simpl.
  repeat match goal with |- _ /\ _ => split end; try reflexivity.
  - intros H. split; apply rateFromSetting_absent; exact H.
  - intros H. unfold detectDataBits.
    outside H (iDataBits (m_currentSettings e)). reflexivity.
  - intros H. unfold detectParity.
    outside H (iParity (m_currentSettings e)). reflexivity.
  - intros H. unfold detectStopBits.
    outside H (iStopBits (m_currentSettings e)). reflexivity.
  - apply detectFlow_bits.
Qed.

Lemma detection_total_with_precedence_witness :
  (inputRate (options (snd (detectDefaultSettings exoticEngine))) = 0 /\
   outputRate (options (snd (detectDefaultSettings exoticEngine))) = 0) /\
  dataBits (options (snd (detectDefaultSettings exoticEngine))) = UnknownDataBits /\
  parity (options (snd (detectDefaultSettings exoticEngine))) = UnknownParity /\
  stopBits (options (snd (detectDefaultSettings exoticEngine))) = UnknownStopBits.
Proof.
  destruct (detection_total_with_precedence exoticEngine)
    as [_ [_ [_ [Hrate [Hdata [Hparity [Hstop _]]]]]]].
  split; [| split; [| split]].
  - apply Hrate. vm_compute. intuition discriminate.
  - apply Hdata. vm_compute. intuition discriminate.
  - apply Hparity. vm_compute. intuition discriminate.
  - apply Hstop. vm_compute. intuition discriminate.
Defined.

Example detectFlow_all_bits :
  detectFlow (mkCommConfig EBps9600 EData8 EStop1 EParityNone 0x127) = SoftwareControl.
Proof. reflexivity. Qed.

Example detectFlow_hardware_and_dsr :
  detectFlow (mkCommConfig EBps9600 EData8 EStop1 EParityNone 0x124) = HardwareControl.
Proof. reflexivity. Qed.

(** ** Opening *)

(** When the devices load, the server connects and the module loads, [open]
    reaches [RComm::Open] with nothing changed but the calls made. *)
Lemma open_reaches_openPort (pf : Platform) (location : string) (e : Engine) :
  fst (loadDevices pf e) = true ->
  rConnect pf = KErrNone ->
  rLoadCommModule pf (moduleFor location) = KErrNone ->
  open pf location e
  = openPort pf location (with_calls (calls e ++ openPrelude location) e).
Proof.
  intros Hload Hconnect Hmodule.
  unfold open, loadDevices in *. revert Hload. run. simpl.
  rewrite Hconnect, Hmodule.
  destruct (failed (rLoadPhysicalDevice pf) && negb (rLoadPhysicalDevice pf =? KErrAlreadyExists));
    simpl; [discriminate |].
  destruct (failed (rLoadLogicalDevice pf) && negb (rLoadLogicalDevice pf =? KErrAlreadyExists));
    simpl; [discriminate |].
  destruct (failed (rStartC32 pf) && negb (rStartC32 pf =? KErrAlreadyExists));
    simpl; [discriminate |].
  intros _. unfold openPort, openPrelude. run. simpl.
  repeat rewrite <- app_assoc. simpl. reflexivity.
Qed.

(** The outcome of a failed [RComm::Open]. *)
Lemma openPort_refused (pf : Platform) (location : string) (e : Engine) :
  rOpen pf location <> KErrNone ->
  openPort pf location e
  = (false, with_error (openError (rOpen pf location))
                       (with_calls (calls e ++ [CommOpen location]) e)).
Proof.
  intros Hr. apply Z.eqb_neq in Hr.
  unfold openPort. run. cbv [failed]. simpl.
  rewrite Hr. simpl. rewrite Hr. reflexivity.
Qed.

(** C1, as the code has it: when the exclusive open of the port fails, [open]
    returns false, the descriptor as it was, and records NoSuchDeviceError for
    KErrPermissionDenied, PermissionDeniedError for KErrLocked and for
    KErrAccessDenied, and UnknownPortError for every other code. *)
Theorem open_failure_classified (pf : Platform) (location : string) (e : Engine) :
  fst (loadDevices pf e) = true ->
  rConnect pf = KErrNone ->
  rLoadCommModule pf (moduleFor location) = KErrNone ->
  rOpen pf location <> KErrNone ->
  let r := rOpen pf location in
  let e' := snd (open pf location e) in
  fst (open pf location e) = false /\
  m_descriptor e' = m_descriptor e /\
  (r = KErrPermissionDenied -> error e' = NoSuchDeviceError) /\
  (r = KErrLocked \/ r = KErrAccessDenied -> error e' = PermissionDeniedError) /\
  (r <> KErrPermissionDenied -> r <> KErrLocked -> r <> KErrAccessDenied ->
   error e' = UnknownPortError).
Proof.
  intros Hload Hconnect Hmodule Hopen r e'. subst r e'.
  rewrite open_reaches_openPort by assumption.
  rewrite openPort_refused by assumption. simpl.
  split; [reflexivity |]. split; [reflexivity |].
  unfold openError. split; [| split].
  - intros ->. reflexivity.
  - intros [-> | ->]; reflexivity.
  - intros H1 H2 H3.
    destruct (Z.eqb_spec (rOpen pf location) KErrPermissionDenied); [contradiction |].
    destruct (Z.eqb_spec (rOpen pf location) KErrLocked); [contradiction |].
    destruct (Z.eqb_spec (rOpen pf location) KErrAccessDenied); [contradiction |].
    reflexivity.
Qed.

Lemma open_failure_classified_witness :
  fst (open (openAnswers KErrLocked) "COMM::0" freshEngine) = false /\
  error (snd (open (openAnswers KErrLocked) "COMM::0" freshEngine))
  = PermissionDeniedError.
Proof.
  assert (Hr : rOpen (openAnswers KErrLocked) "COMM::0" <> KErrNone)
    by (vm_compute; discriminate).
  destruct (open_failure_classified (openAnswers KErrLocked) "COMM::0" freshEngine
              eq_refl eq_refl eq_refl Hr) as [Hfalse [_ [_ [Hdenied _]]]].
  split; [exact Hfalse |].
  apply Hdenied. left. reflexivity.
Defined.

(** C1 as stated does not hold: KErrPermissionDenied, an error of the
    permission class, is recorded as NoSuchDeviceError. *)
Lemma open_permission_class_counterexample :
  ~ (forall (pf : Platform) (location : string) (e : Engine),
       fst (loadDevices pf e) = true ->
       rConnect pf = KErrNone ->
       rLoadCommModule pf (moduleFor location) = KErrNone ->
       permissionClass (rOpen pf location) ->
       error (snd (open pf location e)) = PermissionDeniedError).
Proof.
  intros Hclaim.
  specialize (Hclaim (openAnswers KErrPermissionDenied) "COMM::0"%string freshEngine
                     eq_refl eq_refl eq_refl).
  assert (Hclass : permissionClass
                     (rOpen (openAnswers KErrPermissionDenied) "COMM::0"))
    by (left; reflexivity).
  specialize (Hclaim Hclass). vm_compute in Hclaim. discriminate Hclaim.
Qed.

(** The outcome of a failed [RComm::Config] after a successful
    [RComm::Open]: the error is recorded and [open] returns, the port still
    held and no other call made. *)
Lemma openPort_config_failure (pf : Platform) (location : string) (e : Engine) :
  rOpen pf location = KErrNone ->
  rConfig pf <> KErrNone ->
  openPort pf location e
  = (false, with_error UnknownPortError
              (with_calls (calls e ++ [CommOpen location; CommConfig])
                 (with_descriptor true e))).
Proof.
  intros Hopen Hconfig. apply Z.eqb_neq in Hconfig.
  unfold openPort. run. cbv [failed]. simpl.
  rewrite Hopen. simpl. rewrite Hconfig. simpl. rewrite Hconfig. simpl.
  rewrite <- app_assoc. simpl.
  destruct e; reflexivity.
Qed.

(** C2 fails on the code: the port opens, the read-back of its settings
    fails with KErrGeneral, and [open] returns false with UnknownPortError
    while the descriptor still holds the port; [RComm::Close] is not among
    the calls made. *)
Theorem open_config_failure_keeps_port :
  let e' := snd (open (configAnswers KErrGeneral) "COMM::0" freshEngine) in
  fst (open (configAnswers KErrGeneral) "COMM::0" freshEngine) = false /\
  error e' = UnknownPortError /\
  m_descriptor e' = true /\
  calls e' = [LoadPhysicalDevice; LoadLogicalDevice; StartC32; ServConnect;
              LoadCommModule KRS232ModuleName; CommOpen "COMM::0"; CommConfig] /\
  ~ In CommClose (calls e').
Proof.
  assert (Hconfig : rConfig (configAnswers KErrGeneral) <> KErrNone)
    by (vm_compute; discriminate).
  rewrite (open_reaches_openPort (configAnswers KErrGeneral) "COMM::0" freshEngine
             eq_refl eq_refl eq_refl).
  rewrite (openPort_config_failure (configAnswers KErrGeneral) "COMM::0" _
             eq_refl Hconfig).
  simpl. repeat split.
  intros Hin. simpl in Hin. intuition discriminate.
Qed.

(** ** The readiness wait *)

(** The timeout branch, for every platform and state: both flags are
    cleared and false is returned, the last call is the wait itself, and a
    notification that was asked for stays registered. *)
Lemma select_armed_timeout (pf : Platform) (checkRead checkWrite : bool)
    (selectForRead selectForWrite : bool) (e : Engine) :
  timerStatus pf <> KRequestPending ->
  let out := select_armed pf checkRead checkWrite selectForRead selectForWrite e in
  fst out = mkSelected false false false /\
  calls (snd out) = calls e ++ watchCalls checkRead checkWrite ++ [WaitForNRequest] /\
  readWatch (snd out) = checkRead || readWatch e /\
  writeWatch (snd out) = checkWrite || writeWatch e.
Proof.
  intros Htimer. apply Z.eqb_neq in Htimer.
  unfold select_armed, watchCalls. run.
  destruct checkRead, checkWrite; simpl; rewrite Htimer; simpl;
    repeat rewrite <- app_assoc; simpl; auto.
Qed.

(** C3 fails on the code: the timer completes first while the read and the
    write notification are still pending.  [select] returns false (timed out)
    with both flags cleared, but its last call is the wait: neither
    notification is cancelled, and both stay registered. *)
Theorem select_timeout_leaves_watches :
  let out := select timerFires 100 true true true true freshEngine in
  fst out = mkSelected false false false /\
  calls (snd out) = [TimerCreateLocal; TimerHighRes 100000; NotifyDataAvailable;
                     NotifyOutputEmpty; WaitForNRequest] /\
  readWatch (snd out) = true /\
  writeWatch (snd out) = true.
Proof. vm_compute. auto. Qed.

(** The other branch does cancel what it registered. *)
Example select_read_cancels_watches :
  let out := select readFires 100 true true false false freshEngine in
  fst out = mkSelected true true false /\
  calls (snd out) = [TimerCreateLocal; TimerHighRes 100000; NotifyDataAvailable;
                     NotifyOutputEmpty; WaitForNRequest; TimerCancel; WaitForRequest;
                     NotifyDataAvailableCancel; NotifyOutputEmptyCancel] /\
  readWatch (snd out) = false /\
  writeWatch (snd out) = false.
Proof. vm_compute. auto. Qed.

(** ** Round trip of a whole configuration *)

Lemma run_edit (pf : Platform) (f : TCommConfigV01 -> TCommConfigV01)
    (e e' : Engine) (ok : bool) :
  (edit_currentSettings f ;; updateCommConfig pf) e = (ok, e') ->
  m_currentSettings e' = f (m_currentSettings e).
Proof.
  intros Hrun. destruct (edit_then_update pf f e) as [Hcur _].
  rewrite Hrun in Hcur. exact Hcur.
Qed.

Lemma setDataBits_valid (pf : Platform) (v : Z) (e : Engine) :
  In v validDataBits ->
  exists n,
    setDataBits pf v e
    = (edit_currentSettings (set_iDataBits n) ;; updateCommConfig pf) e /\
    forall c, iDataBits c = n -> detectDataBits c = v.
Proof.
  intros H. enumerate H; eexists; (split; [reflexivity |]);
    intros c Hc; unfold detectDataBits; rewrite Hc; reflexivity.
Qed.

Lemma setParity_valid (pf : Platform) (v : Z) (e : Engine) :
  In v validParity ->
  exists n,
    setParity pf v e
    = (edit_currentSettings (set_iParity n) ;; updateCommConfig pf) e /\
    forall c, iParity c = n -> detectParity c = v.
Proof.
  intros H. enumerate H; eexists; (split; [reflexivity |]);
    intros c Hc; unfold detectParity; rewrite Hc; reflexivity.
Qed.

Lemma setStopBits_valid (pf : Platform) (v : Z) (e : Engine) :
  In v validStopBits ->
  exists n,
    setStopBits pf v e
    = (edit_currentSettings (set_iStopBits n) ;; updateCommConfig pf) e /\
    forall c, iStopBits c = n -> detectStopBits c = v.
Proof.
  intros H. enumerate H; eexists; (split; [reflexivity |]);
    intros c Hc; unfold detectStopBits; rewrite Hc; reflexivity.
Qed.

Lemma setFlowControl_valid (pf : Platform) (v : Z) (e : Engine) :
  In v validFlow ->
  exists n,
    setFlowControl pf v e
    = (edit_currentSettings (set_iHandshake n) ;; updateCommConfig pf) e /\
    forall c, iHandshake c = n -> detectFlow c = v.
Proof.
  intros H. enumerate H; eexists; (split; [reflexivity |]);
    intros c Hc; unfold detectFlow; rewrite Hc; reflexivity.
Qed.

(** Apart from the rate whose setting is zero, a valid configuration comes
    back from detection as it was applied, whatever the port answers to the
    pushes. *)
Lemma configuration_round_trip (pf : Platform) (P : PortConfiguration) (e : Engine) :
  validConfiguration P ->
  settingFromRate (cfgRate P) <> 0 ->
  let e' := snd (detectDefaultSettings (snd (applyConfiguration pf P e))) in
  configurationOf (options e') = P /\ outputRate (options e') = cfgRate P.
Proof.
  intros [Hrate [Hdata [Hparity [Hstop Hflow]]]] Hset.
  unfold applyConfiguration, bind.
  rewrite (setRate_accepts pf _ e Hset).
  destruct ((edit_currentSettings (set_iRate (settingFromRate (cfgRate P))) ;;
             updateCommConfig pf) e) as [ok1 e1] eqn:H1.
  apply run_edit in H1.
  destruct (setDataBits_valid pf _ e1 Hdata) as [nd [-> Hd]].
  destruct ((edit_currentSettings (set_iDataBits nd) ;; updateCommConfig pf) e1)
    as [ok2 e2] eqn:H2.
  apply run_edit in H2.
  destruct (setParity_valid pf _ e2 Hparity) as [np [-> Hp]].
  destruct ((edit_currentSettings (set_iParity np) ;; updateCommConfig pf) e2)
    as [ok3 e3] eqn:H3.
  apply run_edit in H3.
  destruct (setStopBits_valid pf _ e3 Hstop) as [ns [-> Hs]].
  destruct ((edit_currentSettings (set_iStopBits ns) ;; updateCommConfig pf) e3)
    as [ok4 e4] eqn:H4.
  apply run_edit in H4.
  destruct (setFlowControl_valid pf _ e4 Hflow) as [nf [-> Hf]].
  destruct ((edit_currentSettings (set_iHandshake nf) ;; updateCommConfig pf) e4)
    as [ok5 e5] eqn:H5.
  apply run_edit in H5.
  unfold ret, detectDefaultSettings, modify, configurationOf, detected. simpl.
  rewrite H5, H4, H3, H2, H1. simpl.
  rewrite Hd, Hp, Hs, Hf by reflexivity.
  rewrite (settingFromRate_found _ Hset).
  destruct P; simpl. auto.
Qed.

Lemma settingFromRate_zero_only_50 (r : Z) :
  In r standardRates -> settingFromRate r = 0 -> r = 50.
Proof.
  intros Hin. enumerate Hin; vm_compute; intros H; try discriminate H; reflexivity.
Qed.

(** C4 fails on the code at the rate 50: its setting [EBps50] is zero, the
    value [settingFromRate] returns for a rate it does not find, so [setRate]
    rejects it for every state; applying the valid configuration [slowest]
    to a port at 9600 fails and detection gives back the rate 9600. *)
Theorem rate_50_does_not_round_trip :
  validConfiguration slowest /\
  (forall pf e, setRate pf 50 AllDirections e
                = (false, with_error UnsupportedPortOperationError e)) /\
  fst (applyConfiguration obligingPlatform slowest freshEngine) = false /\
  configurationOf
    (options (snd (detectDefaultSettings
                     (snd (applyConfiguration obligingPlatform slowest freshEngine)))))
  = mkPortConfiguration 9600 Data8 NoParity OneStop NoFlowControl.
Proof.
  split; [| split; [| split]].
  - unfold validConfiguration. simpl. tauto.
  - intros pf e. apply setRate_rejects. right. reflexivity.
  - reflexivity.
  - reflexivity.
Qed.

(** * Further properties *)

(** ** The searches on any table *)







(** The linear search returns the first match: no entry before the position
    [qFind] returns has the setting looked for, and the position is the end of
    the table or holds that setting. *)
Lemma qFind_from_first (tbl : list RatePair) (first : nat) (val : RatePair) :
  (forall k, (k < qFind_from tbl first val - first)%nat ->
             RatePair_eq (deref tbl k) val = false) /\
  ((qFind_from tbl first val < first + List.length tbl)%nat ->
   RatePair_eq (deref tbl (qFind_from tbl first val - first)) val = true).
Proof.
  revert first. induction tbl as [| x rest IH]; intros first; simpl.
  - split; intros; lia.
  - destruct (RatePair_eq x val) eqn:Hx.
    + split.
      * intros k Hk. lia.
      * intros _. rewrite Nat.sub_diag. unfold deref. simpl. exact Hx.
    + destruct (IH (S first)) as [Hbefore Hat].
      pose proof (qFind_from_le rest (S first) val) as Hle.
      split.
      * intros k Hk. destruct k as [| k]; unfold deref; simpl; [exact Hx |].
        apply Hbefore. lia.
      * intros Hlt.
        replace (qFind_from rest (S first) val - first)%nat
          with (S (qFind_from rest (S first) val - S first)) by lia.
        unfold deref. simpl. apply Hat. lia.
Qed.

Theorem qFind_first_match (tbl : list RatePair) (val : RatePair) :
  (qFind tbl val <= List.length tbl)%nat /\
  (forall k, (k < qFind tbl val)%nat -> setting (deref tbl k) <> setting val) /\
  ((qFind tbl val < List.length tbl)%nat ->
   setting (deref tbl (qFind tbl val)) = setting val).
Proof.
  unfold qFind.
  pose proof (qFind_from_le tbl 0 val) as Hle.
  destruct (qFind_from_first tbl 0 val) as [Hbefore Hat].
  rewrite Nat.sub_0_r in *.
  split; [lia |]. split.
  - intros k Hk. specialize (Hbefore k Hk).
    unfold RatePair_eq in Hbefore. apply Z.eqb_neq. exact Hbefore.
  - intros Hlt. specialize (Hat Hlt).
    unfold RatePair_eq in Hat. apply Z.eqb_eq. exact Hat.
Qed.

(** A table in which the setting 7 occurs twice: the search stops at the
    first of the two. *)
Lemma qFind_first_match_witness :
  setting (deref [mkRatePair 50 3; mkRatePair 75 7; mkRatePair 110 7] 0) <> 7 /\
  setting (deref [mkRatePair 50 3; mkRatePair 75 7; mkRatePair 110 7]
                 (qFind [mkRatePair 50 3; mkRatePair 75 7; mkRatePair 110 7]
                        (mkRatePair 0 7)))
  = 7.
Proof.
  destruct (qFind_first_match [mkRatePair 50 3; mkRatePair 75 7; mkRatePair 110 7]
                              (mkRatePair 0 7)) as [_ [Hbefore Hat]].
  split.
  - apply (Hbefore 0%nat). vm_compute. lia.
  - apply Hat. vm_compute. lia.
Defined.

(** ** The lookups of the engine *)

(** The rates [settingFromRate] has a non-zero setting for are the rates of
    the table other than 50; every other number gives 0. *)
Theorem settingFromRate_nonzero_iff (r : Z) :
  settingFromRate r <> 0 <-> In r standardRates /\ r <> 50.
Proof.
  split.
  - intros Hset. split.
    + apply settingFromRate_in_table. exact Hset.
    + intros ->. apply Hset. reflexivity.
  - intros [Hin Hne] Hzero. apply Hne.
    apply settingFromRate_zero_only_50; assumption.
Qed.

Lemma settingFromRate_nonzero_iff_witness :
  settingFromRate 115200 <> 0 /\ ~ settingFromRate 115201 <> 0.
Proof.
  split.
  - apply (proj2 (settingFromRate_nonzero_iff 115200)).
    split; [vm_compute; tauto | lia].
  - intros Hset.
    destruct (proj1 (settingFromRate_nonzero_iff 115201) Hset) as [Hin _].
    vm_compute in Hin. intuition discriminate.
Defined.

(** The settings [rateFromSetting] has a rate for are exactly the settings
    of the table; every other number, a negative one or one past the last
    enumerator included, gives 0. *)
Theorem rateFromSetting_nonzero_iff (s : Z) :
  rateFromSetting s <> 0 <-> In s (map setting standardRatesTable).
Proof.
  split.
  - intros Hrate.
    destruct (in_dec Z.eq_dec s (map setting standardRatesTable)) as [Hin | Hnot];
      [exact Hin |].
    exfalso. apply Hrate. apply rateFromSetting_absent. exact Hnot.
  - intros Hin. enumerate Hin; vm_compute; discriminate.
Qed.

Lemma rateFromSetting_nonzero_iff_witness :
  rateFromSetting EBps50 <> 0 /\ ~ rateFromSetting 25 <> 0.
Proof.
  split.
  - apply (proj2 (rateFromSetting_nonzero_iff EBps50)). vm_compute. tauto.
  - intros Hrate.
    pose proof (proj1 (rateFromSetting_nonzero_iff 25) Hrate) as Hin.
    vm_compute in Hin. intuition discriminate.
Defined.

(** ** Loading the drivers *)

Lemma load_test (r : Z) :
  failed r && negb (r =? KErrAlreadyExists) = false <-> loaded r.
Proof.
  unfold failed, loaded.
  destruct (Z.eqb_spec r KErrNone) as [H0 | H0];
    destruct (Z.eqb_spec r KErrAlreadyExists) as [H1 | H1]; simpl;
    intuition congruence.
Qed.

Lemma load_test_dec (r : Z) : {loaded r} + {~ loaded r}.
Proof.
  unfold loaded.
  destruct (Z.eq_dec r KErrNone); [left; tauto |].
  destruct (Z.eq_dec r KErrAlreadyExists); [left; tauto | right; tauto].
Defined.

(** [loadDevices] succeeds exactly when each of the three loads returns
    KErrNone or KErrAlreadyExists: drivers that are already there are no
    error. *)
Theorem loadDevices_true_iff (pf : Platform) (e : Engine) :
  fst (loadDevices pf e) = true <->
  loaded (rLoadPhysicalDevice pf) /\
  loaded (rLoadLogicalDevice pf) /\
  loaded (rStartC32 pf).
Proof.
  unfold loadDevices. run. simpl.
  destruct (failed (rLoadPhysicalDevice pf)
            && negb (rLoadPhysicalDevice pf =? KErrAlreadyExists)) eqn:H1;
    [| destruct (failed (rLoadLogicalDevice pf)
                 && negb (rLoadLogicalDevice pf =? KErrAlreadyExists)) eqn:H2;
       [| destruct (failed (rStartC32 pf)
                    && negb (rStartC32 pf =? KErrAlreadyExists)) eqn:H3]];
    simpl.
  - split; [discriminate |]. intros [Hl _]. apply load_test in Hl. congruence.
  - split; [discriminate |]. intros [_ [Hl _]]. apply load_test in Hl. congruence.
  - split; [discriminate |]. intros [_ [_ Hl]]. apply load_test in Hl. congruence.
  - split; [| reflexivity]. intros _.
    apply load_test in H1. apply load_test in H2. apply load_test in H3. auto.
Qed.

Lemma loadDevices_true_iff_witness :
  fst (loadDevices
         (mkPlatform KErrAlreadyExists KErrNone KErrAlreadyExists KErrNone
                     (fun _ => KErrNone) (fun _ => KErrNone) KErrNone
                     (fun _ => KErrNone) KErrNone
                     KRequestPending KRequestPending KRequestPending)
         freshEngine) = true.
Proof.
  apply (proj2 (loadDevices_true_iff _ freshEngine)).
  unfold loaded. simpl. tauto.
Defined.

(** [loadDevices] stops at the first load that fails: the later loads are
    not attempted, and nothing of the engine changes but the calls made. *)
Theorem loadDevices_stops_at_failure (pf : Platform) (e : Engine) :
  let e' := snd (loadDevices pf e) in
  e' = with_calls (calls e') e /\
  (~ loaded (rLoadPhysicalDevice pf) ->
   calls e' = calls e ++ [LoadPhysicalDevice]) /\
  (loaded (rLoadPhysicalDevice pf) -> ~ loaded (rLoadLogicalDevice pf) ->
   calls e' = calls e ++ [LoadPhysicalDevice; LoadLogicalDevice]) /\
  (loaded (rLoadPhysicalDevice pf) -> loaded (rLoadLogicalDevice pf) ->
   calls e' = calls e ++ [LoadPhysicalDevice; LoadLogicalDevice; StartC32]).
Proof.
  unfold loadDevices. run. simpl.
  destruct (failed (rLoadPhysicalDevice pf)
            && negb (rLoadPhysicalDevice pf =? KErrAlreadyExists)) eqn:H1;
    [| destruct (failed (rLoadLogicalDevice pf)
                 && negb (rLoadLogicalDevice pf =? KErrAlreadyExists)) eqn:H2;
       [| destruct (failed (rStartC32 pf)
                    && negb (rStartC32 pf =? KErrAlreadyExists)) eqn:H3]];
    simpl; repeat rewrite <- app_assoc; simpl;
    (split; [reflexivity |]);
    repeat match goal with
           | H : _ && _ = false |- _ => apply load_test in H
           | H : _ && _ = true |- _ =>
             assert (~ loaded _) by (rewrite <- load_test, H; discriminate); clear H
           end;
    repeat split; intros; try reflexivity; try contradiction.
Qed.

Lemma loadDevices_stops_at_failure_witness :
  calls (snd (loadDevices driverMissing freshEngine))
  = calls freshEngine ++ [LoadPhysicalDevice; LoadLogicalDevice].
Proof.
  destruct (loadDevices_stops_at_failure driverMissing freshEngine)
    as [_ [_ [Hsecond _]]].
  apply Hsecond.
  - unfold loaded. simpl. tauto.
  - unfold loaded. vm_compute. intuition discriminate.
Defined.

(** ** Opening, step by step *)

Lemma preludeSucceeds_dec (pf : Platform) (location : string) :
  {preludeSucceeds pf location} + {~ preludeSucceeds pf location}.
Proof.
  unfold preludeSucceeds.
  destruct (load_test_dec (rLoadPhysicalDevice pf)); [| right; tauto].
  destruct (load_test_dec (rLoadLogicalDevice pf)); [| right; tauto].
  destruct (load_test_dec (rStartC32 pf)); [| right; tauto].
  destruct (Z.eq_dec (rConnect pf) KErrNone); [| right; tauto].
  destruct (Z.eq_dec (rLoadCommModule pf (moduleFor location)) KErrNone);
    [left; tauto | right; tauto].
Defined.

(** A failure before [RComm::Open]: the calls made since contain no
    [RComm::Open], and the engine is as it was but for the error. *)
Lemma open_prelude_failure (pf : Platform) (location : string) (e : Engine) :
  ~ preludeSucceeds pf location ->
  exists l,
    open pf location e
    = (false, with_error UnknownPortError (with_calls (calls e ++ l) e)) /\
    forall name, ~ In (CommOpen name) l.
Proof.
  intros Hnot. unfold preludeSucceeds in Hnot.
  unfold open, loadDevices. run. simpl.
  destruct (failed (rLoadPhysicalDevice pf)
            && negb (rLoadPhysicalDevice pf =? KErrAlreadyExists)) eqn:H1; simpl.
  { exists [LoadPhysicalDevice]. split; [reflexivity |].
    intros name [H | []]. discriminate H. }
  destruct (failed (rLoadLogicalDevice pf)
            && negb (rLoadLogicalDevice pf =? KErrAlreadyExists)) eqn:H2; simpl.
  { exists [LoadPhysicalDevice; LoadLogicalDevice].
    rewrite <- app_assoc. split; [reflexivity |].
    intros name Hin. simpl in Hin. intuition discriminate. }
  destruct (failed (rStartC32 pf)
            && negb (rStartC32 pf =? KErrAlreadyExists)) eqn:H3; simpl.
  { exists [LoadPhysicalDevice; LoadLogicalDevice; StartC32].
    repeat rewrite <- app_assoc. split; [reflexivity |].
    intros name Hin. simpl in Hin. intuition discriminate. }
  apply load_test in H1. apply load_test in H2. apply load_test in H3.
  unfold failed.
  destruct (Z.eqb_spec (rConnect pf) KErrNone) as [Hc | Hc]; simpl.
  - destruct (Z.eqb_spec (rLoadCommModule pf (moduleFor location)) KErrNone)
      as [Hm | Hm]; simpl.
    + exfalso. apply Hnot. auto.
    + exists [LoadPhysicalDevice; LoadLogicalDevice; StartC32; ServConnect;
              LoadCommModule (moduleFor location)].
      repeat rewrite <- app_assoc. split; [reflexivity |].
      intros name Hin. simpl in Hin. intuition discriminate.
  - exists [LoadPhysicalDevice; LoadLogicalDevice; StartC32; ServConnect].
    repeat rewrite <- app_assoc. split; [reflexivity |].
    intros name Hin. simpl in Hin. intuition discriminate.
Qed.

(** When the drivers, the server connection or the module fail, [open]
    returns false with UnknownPortError and never tries the port: no
    [RComm::Open] is called, and the descriptor, the saved settings and the
    options are as before. *)
Theorem open_fails_before_port (pf : Platform) (location : string) (e : Engine) :
  ~ preludeSucceeds pf location ->
  let e' := snd (open pf location e) in
  fst (open pf location e) = false /\
  error e' = UnknownPortError /\
  m_descriptor e' = m_descriptor e /\
  m_restoredSettings e' = m_restoredSettings e /\
  options e' = options e /\
  (forall name, In (CommOpen name) (calls e') -> In (CommOpen name) (calls e)).
Proof.
  intros Hnot.
  destruct (open_prelude_failure pf location e Hnot) as [l [Hrun Hno]].
  rewrite Hrun. simpl. repeat split.
  intros name Hin. apply in_app_or in Hin. destruct Hin as [Hin | Hin].
  - exact Hin.
  - exfalso. exact (Hno name Hin).
Qed.

Lemma open_fails_before_port_witness :
  fst (open driverMissing "COMM::0" freshEngine) = false /\
  error (snd (open driverMissing "COMM::0" freshEngine)) = UnknownPortError /\
  m_descriptor (snd (open driverMissing "COMM::0" freshEngine)) = false.
Proof.
  assert (Hnot : ~ preludeSucceeds driverMissing "COMM::0").
  { unfold preludeSucceeds, loaded. vm_compute. intuition discriminate. }
  destruct (open_fails_before_port driverMissing "COMM::0" freshEngine Hnot)
    as [Hfalse [Herror [Hdesc _]]].
  split; [exact Hfalse |]. split; [exact Herror | exact Hdesc].
Defined.

Lemma preludeSucceeds_reaches (pf : Platform) (location : string) (e : Engine) :
  preludeSucceeds pf location ->
  open pf location e
  = openPort pf location (with_calls (calls e ++ openPrelude location) e).
Proof.
  intros [H1 [H2 [H3 [Hc Hm]]]].
  apply open_reaches_openPort; [| exact Hc | exact Hm].
  apply loadDevices_true_iff. auto.
Qed.

Lemma openPort_success (pf : Platform) (location : string) (e : Engine) :
  rOpen pf location = KErrNone ->
  rConfig pf = KErrNone ->
  openPort pf location e
  = (true,
     with_options (detected (m_currentSettings e) (options e))
       (with_restoredSettings (portConfig e)
          (with_calls (calls e ++ [CommOpen location; CommConfig])
             (with_descriptor true e)))).
Proof.
  intros Hopen Hconfig. unfold openPort, detectDefaultSettings. run.
  cbv [failed]. simpl.
  rewrite Hopen. simpl. rewrite Hconfig. simpl.
  rewrite <- app_assoc. reflexivity.
Qed.

(** A successful [open]: the descriptor holds the port, the settings of the
    port are saved for [close], the error is untouched, and the options are
    the ones detected from the working copy the engine had before the call;
    the working copy itself and the port are not changed. *)
Theorem open_success_state (pf : Platform) (location : string) (e : Engine) :
  preludeSucceeds pf location ->
  rOpen pf location = KErrNone ->
  rConfig pf = KErrNone ->
  let e' := snd (open pf location e) in
  fst (open pf location e) = true /\
  m_descriptor e' = true /\
  m_restoredSettings e' = portConfig e /\
  options e' = detected (m_currentSettings e) (options e) /\
  m_currentSettings e' = m_currentSettings e /\
  portConfig e' = portConfig e /\
  error e' = error e /\
  calls e' = calls e ++ openPrelude location ++ [CommOpen location; CommConfig].
Proof.
  intros Hpre Hopen Hconfig.
  rewrite (preludeSucceeds_reaches pf location e Hpre).
  rewrite (openPort_success pf location _ Hopen Hconfig). simpl.
  rewrite <- app_assoc. repeat split.
Qed.

Lemma obliging_prelude (location : string) :
  preludeSucceeds obligingPlatform location.
Proof. unfold preludeSucceeds, loaded. simpl. tauto. Qed.

Lemma open_success_state_witness :
  fst (open obligingPlatform "COMM::0" freshEngine) = true /\
  m_descriptor (snd (open obligingPlatform "COMM::0" freshEngine)) = true /\
  m_restoredSettings (snd (open obligingPlatform "COMM::0" freshEngine))
  = portConfig freshEngine.
Proof.
  pose proof (obliging_prelude "COMM::0") as Hpre.
  destruct (open_success_state obligingPlatform "COMM::0" freshEngine
              Hpre eq_refl eq_refl) as [Htrue [Hdesc [Hsaved _]]].
  split; [exact Htrue |]. split; [exact Hdesc | exact Hsaved].
Defined.

(** [open] returns true exactly when the drivers load, the server connects,
    the module loads, the port opens and its settings can be read. *)
Theorem open_true_iff (pf : Platform) (location : string) (e : Engine) :
  fst (open pf location e) = true <->
  preludeSucceeds pf location /\
  rOpen pf location = KErrNone /\
  rConfig pf = KErrNone.
Proof.
  split.
  - intros Htrue.
    destruct (preludeSucceeds_dec pf location) as [Hpre | Hnot].
    + split; [exact Hpre |].
      rewrite (preludeSucceeds_reaches pf location e Hpre) in Htrue.
      destruct (Z.eq_dec (rOpen pf location) KErrNone) as [Hopen | Hopen].
      * split; [exact Hopen |].
        destruct (Z.eq_dec (rConfig pf) KErrNone) as [Hconfig | Hconfig];
          [exact Hconfig |].
        rewrite (openPort_config_failure pf location _ Hopen Hconfig) in Htrue.
        discriminate Htrue.
      * rewrite (openPort_refused pf location _ Hopen) in Htrue.
        discriminate Htrue.
    + destruct (open_prelude_failure pf location e Hnot) as [l [Hrun _]].
      rewrite Hrun in Htrue. discriminate Htrue.
  - intros [Hpre [Hopen Hconfig]].
    rewrite (preludeSucceeds_reaches pf location e Hpre).
    rewrite (openPort_success pf location _ Hopen Hconfig). reflexivity.
Qed.

Lemma open_true_iff_witness :
  fst (open obligingPlatform "COMM::0" freshEngine) = true.
Proof.
  apply (proj2 (open_true_iff obligingPlatform "COMM::0" freshEngine)).
  split; [apply obliging_prelude | split; reflexivity].
Defined.

(** The options after a successful [open] do not depend on the settings of
    the port: [open] saves what the port reports in [m_restoredSettings] and
    runs the detection on [m_currentSettings], which it never loads. *)
Theorem open_detection_ignores_port (pf : Platform) (location : string)
    (e : Engine) (c : TCommConfigV01) :
  preludeSucceeds pf location ->
  rOpen pf location = KErrNone ->
  rConfig pf = KErrNone ->
  options (snd (open pf location (with_portConfig c e)))
  = options (snd (open pf location e)) /\
  m_restoredSettings (snd (open pf location (with_portConfig c e))) = c.
Proof.
  intros Hpre Hopen Hconfig.
  destruct (open_success_state pf location e Hpre Hopen Hconfig)
    as [_ [_ [_ [Hopt _]]]].
  destruct (open_success_state pf location (with_portConfig c e) Hpre Hopen Hconfig)
    as [_ [_ [Hsaved [Hoptc _]]]].
  rewrite Hopt, Hoptc, Hsaved. split; reflexivity.
Qed.

(** A port at 115200 7E2, opened by an engine whose working copy says
    9600 8N1: the options after [open] say 9600 8N1. *)
Lemma open_detection_ignores_port_witness :
  configurationOf
    (options (snd (open obligingPlatform "COMM::0"
                     (with_portConfig
                        (mkCommConfig EBps115200 EData7 EStop2 EParityEven
                                      (Z.lor KConfigObeyCTS KConfigFreeRTS))
                        freshEngine))))
  = mkPortConfiguration 9600 Data8 NoParity OneStop NoFlowControl.
Proof.
  pose proof (obliging_prelude "COMM::0") as Hpre.
  rewrite (proj1 (open_detection_ignores_port obligingPlatform "COMM::0" freshEngine
                    (mkCommConfig EBps115200 EData7 EStop2 EParityEven
                                  (Z.lor KConfigObeyCTS KConfigFreeRTS))
                    Hpre eq_refl eq_refl)).
  reflexivity.
Defined.

(** ** The setters and the port *)

(** What an edit followed by the push leaves alone, and what the push does
    to the port and the error. *)
Lemma edit_then_update_frame (pf : Platform) (f : TCommConfigV01 -> TCommConfigV01)
    (e : Engine) :
  let ok := fst ((edit_currentSettings f ;; updateCommConfig pf) e) in
  let e' := snd ((edit_currentSettings f ;; updateCommConfig pf) e) in
  m_restoredSettings e' = m_restoredSettings e /\
  options e' = options e /\
  m_descriptor e' = m_descriptor e /\
  m_selectTimer e' = m_selectTimer e /\
  readWatch e' = readWatch e /\
  writeWatch e' = writeWatch e /\
  (ok = true -> portConfig e' = f (m_currentSettings e) /\ error e' = error e) /\
  (ok = false ->
   portConfig e' = portConfig e /\ error e' = UnsupportedPortOperationError).
Proof.
  run. cbv [failed]. simpl.
  destruct (rSetConfig pf (f (m_currentSettings e)) =? KErrNone) eqn:Hr;
    simpl; rewrite ?Hr; simpl; repeat split; intros; try discriminate; reflexivity.
Qed.

(** A valid request other than the rate 50 is taken by its setter. *)
Lemma applySetting_accepts (pf : Platform) (s : Setting) (e : Engine) :
  validSetting s ->
  s <> Rate 50 AllDirections ->
  exists f,
    applySetting pf s e = (edit_currentSettings f ;; updateCommConfig pf) e /\
    holdsSetting s (f (m_currentSettings e)).
Proof.
  intros Hvalid Hnot50.
  destruct (applySetting_cases pf s e) as [Hrej | [f [Hrun [_ Hholds]]]].
  - exfalso. destruct s as [r dir | v | v | v | v]; simpl in Hvalid, Hrej.
    + destruct Hvalid as [-> Hin].
      assert (Hset : settingFromRate r <> 0).
      { apply settingFromRate_nonzero_iff. split; [exact Hin |].
        intros ->. apply Hnot50. reflexivity. }
      rewrite (setRate_accepts pf r e Hset) in Hrej.
      destruct (edit_then_update pf (set_iRate (settingFromRate r)) e)
        as [_ [Hcalls _]].
      rewrite Hrej in Hcalls. simpl in Hcalls.
      apply (f_equal (@List.length Call)) in Hcalls.
      rewrite length_app in Hcalls. simpl in Hcalls. lia.
    + destruct (setDataBits_valid pf v e Hvalid) as [n [Hrun _]].
      rewrite Hrun in Hrej.
      destruct (edit_then_update pf (set_iDataBits n) e) as [_ [Hcalls _]].
      rewrite Hrej in Hcalls. simpl in Hcalls.
      apply (f_equal (@List.length Call)) in Hcalls.
      rewrite length_app in Hcalls. simpl in Hcalls. lia.
    + destruct (setParity_valid pf v e Hvalid) as [n [Hrun _]].
      rewrite Hrun in Hrej.
      destruct (edit_then_update pf (set_iParity n) e) as [_ [Hcalls _]].
      rewrite Hrej in Hcalls. simpl in Hcalls.
      apply (f_equal (@List.length Call)) in Hcalls.
      rewrite length_app in Hcalls. simpl in Hcalls. lia.
    + destruct (setStopBits_valid pf v e Hvalid) as [n [Hrun _]].
      rewrite Hrun in Hrej.
      destruct (edit_then_update pf (set_iStopBits n) e) as [_ [Hcalls _]].
      rewrite Hrej in Hcalls. simpl in Hcalls.
      apply (f_equal (@List.length Call)) in Hcalls.
      rewrite length_app in Hcalls. simpl in Hcalls. lia.
    + destruct (setFlowControl_valid pf v e Hvalid) as [n [Hrun _]].
      rewrite Hrun in Hrej.
      destruct (edit_then_update pf (set_iHandshake n) e) as [_ [Hcalls _]].
      rewrite Hrej in Hcalls. simpl in Hcalls.
      apply (f_equal (@List.length Call)) in Hcalls.
      rewrite length_app in Hcalls. simpl in Hcalls. lia.
  - exists f. split; assumption.
Qed.

(** A setter that returns true has brought the port to the working copy: the
    request was a valid one, the working copy holds its value, the settings
    in force on the port are the working copy, and the error is untouched. *)
Theorem setter_success_syncs_port (pf : Platform) (s : Setting) (e : Engine) :
  fst (applySetting pf s e) = true ->
  let e' := snd (applySetting pf s e) in
  validSetting s /\
  holdsSetting s (m_currentSettings e') /\
  portConfig e' = m_currentSettings e' /\
  error e' = error e.
Proof.
  intros Htrue.
  destruct (applySetting_cases pf s e) as [Hrej | [f [Hrun [Hvalid Hholds]]]].
  - rewrite Hrej in Htrue. discriminate Htrue.
  - rewrite Hrun in *.
    destruct (edit_then_update pf f e) as [Hcur _].
    destruct (edit_then_update_frame pf f e) as [_ [_ [_ [_ [_ [_ [Hok _]]]]]]].
    destruct (Hok Htrue) as [Hport Herr].
    cbv zeta. rewrite Hcur, Hport, Herr. auto.
Qed.

Lemma setter_success_syncs_port_witness :
  portConfig (snd (applySetting obligingPlatform (Rate 115200 AllDirections)
                                freshEngine))
  = m_currentSettings (snd (applySetting obligingPlatform (Rate 115200 AllDirections)
                                         freshEngine)) /\
  rateFromSetting
    (iRate (m_currentSettings
              (snd (applySetting obligingPlatform (Rate 115200 AllDirections)
                                 freshEngine))))
  = 115200.
Proof.
  destruct (setter_success_syncs_port obligingPlatform (Rate 115200 AllDirections)
              freshEngine eq_refl) as [_ [Hholds [Hport _]]].
  split; [exact Hport | exact Hholds].
Defined.

(** When the port refuses the push of a valid request, the setter returns
    false with UnsupportedPortOperationError, the port keeps its settings,
    and the working copy keeps the new value: it is not rolled back, so the
    working copy and the port differ from then on. *)
Theorem setter_push_refused (pf : Platform) (s : Setting) (e : Engine) :
  validSetting s ->
  s <> Rate 50 AllDirections ->
  (forall c, rSetConfig pf c <> KErrNone) ->
  let e' := snd (applySetting pf s e) in
  fst (applySetting pf s e) = false /\
  error e' = UnsupportedPortOperationError /\
  portConfig e' = portConfig e /\
  holdsSetting s (m_currentSettings e') /\
  calls e' = calls e ++ [CommSetConfig (m_currentSettings e')].
Proof.
  intros Hvalid Hnot50 Hrefuse.
  destruct (applySetting_accepts pf s e Hvalid Hnot50) as [f [Hrun Hholds]].
  rewrite Hrun.
  destruct (edit_then_update pf f e) as [Hcur [Hcalls Hok]].
  destruct (edit_then_update_frame pf f e) as [_ [_ [_ [_ [_ [_ [_ Hfail]]]]]]].
  assert (Hfalse : fst ((edit_currentSettings f ;; updateCommConfig pf) e) = false).
  { rewrite Hok. unfold failed.
    destruct (Z.eqb_spec (rSetConfig pf (f (m_currentSettings e))) KErrNone)
      as [He | Hne]; [exfalso; exact (Hrefuse _ He) | reflexivity]. }
  destruct (Hfail Hfalse) as [Hport Herr].
  cbv zeta. rewrite Hcur, Hcalls, Hport, Herr. auto.
Qed.

Lemma setter_push_refused_witness :
  fst (applySetting pushRefused (Parity EvenParity) freshEngine) = false /\
  portConfig (snd (applySetting pushRefused (Parity EvenParity) freshEngine))
  = portConfig freshEngine /\
  detectParity
    (m_currentSettings (snd (applySetting pushRefused (Parity EvenParity) freshEngine)))
  = EvenParity.
Proof.
  assert (Hvalid : validSetting (Parity EvenParity)) by (simpl; tauto).
  assert (Hnot50 : Parity EvenParity <> Rate 50 AllDirections) by discriminate.
  assert (Hrefuse : forall c, rSetConfig pushRefused c <> KErrNone)
    by (intros c; vm_compute; discriminate).
  destruct (setter_push_refused pushRefused (Parity EvenParity) freshEngine
              Hvalid Hnot50 Hrefuse) as [Hfalse [_ [Hport [Hholds _]]]].
  split; [exact Hfalse |]. split; [exact Hport | exact Hholds].
Defined.

(** A setter, whatever its outcome, leaves the descriptor, the saved
    settings, the options, the timer and the notifications alone. *)
Lemma applySetting_frame (pf : Platform) (s : Setting) (e : Engine) :
  let e' := snd (applySetting pf s e) in
  m_restoredSettings e' = m_restoredSettings e /\
  options e' = options e /\
  m_descriptor e' = m_descriptor e /\
  m_selectTimer e' = m_selectTimer e /\
  readWatch e' = readWatch e /\
  writeWatch e' = writeWatch e.
Proof.
  destruct (applySetting_cases pf s e) as [Hrej | [f [Hrun _]]].
  - rewrite Hrej. simpl. auto 10.
  - rewrite Hrun.
    destruct (edit_then_update_frame pf f e) as [H1 [H2 [H3 [H4 [H5 [H6 _]]]]]].
    auto 10.
Qed.

Lemma applySettings_frame (requests : list (Platform * Setting)) (e : Engine) :
  m_restoredSettings (applySettings requests e) = m_restoredSettings e /\
  options (applySettings requests e) = options e /\
  m_descriptor (applySettings requests e) = m_descriptor e.
Proof.
  revert e. induction requests as [| [pf s] rest IH]; intros e; simpl.
  - auto.
  - destruct (IH (snd (applySetting pf s e))) as [H1 [H2 H3]].
    destruct (applySetting_frame pf s e) as [F1 [F2 [F3 _]]].
    rewrite H1, H2, H3, F1, F2, F3. auto.
Qed.

(** The outcome of [close] on the port. *)
Lemma close_port (pf : Platform) (location : string) (e : Engine) :
  restoreSettingsOnClose (options e) = true ->
  rSetConfig pf (m_restoredSettings e) = KErrNone ->
  portConfig (snd (close pf location e)) = m_restoredSettings e /\
  m_descriptor (snd (close pf location e)) = false.
Proof.
  intros Hflag Hset. unfold close. run. cbv [failed]. simpl.
  rewrite Hflag. simpl. rewrite Hset. simpl. auto.
Qed.

(** Open, change settings, close: with restore-on-close requested, any run
    of setter calls between a successful [open] and [close] is undone on the
    port; when the port takes the restore write, its settings after [close]
    are the ones it had before [open], and the descriptor is released. *)
Theorem settings_restored_on_close
    (pfOpen pfClose : Platform) (location : string)
    (requests : list (Platform * Setting)) (e : Engine) :
  restoreSettingsOnClose (options e) = true ->
  preludeSucceeds pfOpen location ->
  rOpen pfOpen location = KErrNone ->
  rConfig pfOpen = KErrNone ->
  rSetConfig pfClose (portConfig e) = KErrNone ->
  let opened := snd (open pfOpen location e) in
  let closed := snd (close pfClose location (applySettings requests opened)) in
  portConfig closed = portConfig e /\ m_descriptor closed = false.
Proof.
  intros Hflag Hpre Hopen Hconfig Hset opened closed. subst opened closed.
  destruct (open_success_state pfOpen location e Hpre Hopen Hconfig)
    as [_ [_ [Hsaved [Hopt _]]]].
  destruct (applySettings_frame requests (snd (open pfOpen location e)))
    as [Hkept [Hoptions _]].
  assert (Hflag' : restoreSettingsOnClose
                     (options (applySettings requests (snd (open pfOpen location e))))
                   = true).
  { rewrite Hoptions, Hopt. simpl. exact Hflag. }
  assert (Hset' : rSetConfig pfClose
                    (m_restoredSettings
                       (applySettings requests (snd (open pfOpen location e))))
                  = KErrNone).
  { rewrite Hkept, Hsaved. exact Hset. }
  destruct (close_port pfClose location _ Hflag' Hset') as [Hport Hdesc].
  rewrite Hport, Hdesc, Hkept, Hsaved. auto.
Qed.

Lemma settings_restored_on_close_witness :
  portConfig
    (snd (close obligingPlatform "COMM::0"
            (applySettings
               [(obligingPlatform, Rate 115200 AllDirections);
                (obligingPlatform, Parity EvenParity)]
               (snd (open obligingPlatform "COMM::0" restoringEngine)))))
  = portConfig restoringEngine.
Proof.
  apply (settings_restored_on_close obligingPlatform obligingPlatform "COMM::0"
           [(obligingPlatform, Rate 115200 AllDirections);
            (obligingPlatform, Parity EvenParity)]
           restoringEngine eq_refl (obliging_prelude "COMM::0")
           eq_refl eq_refl eq_refl).
Defined.

Example settings_changed_before_close :
  portConfig
    (applySettings
       [(obligingPlatform, Rate 115200 AllDirections);
        (obligingPlatform, Parity EvenParity)]
       (snd (open obligingPlatform "COMM::0" restoringEngine)))
  = mkCommConfig EBps115200 EData8 EStop1 EParityEven KConfigFailDSR.
Proof. reflexivity. Qed.

(** The working copy after a setter differs from the one before in the
    field of that setter at most. *)
Lemma applySetting_edits (pf : Platform) (s : Setting) (e : Engine) :
  exists x,
    m_currentSettings (snd (applySetting pf s e))
    = match s with
      | Rate _ _ => set_iRate x (m_currentSettings e)
      | DataBits _ => set_iDataBits x (m_currentSettings e)
      | Parity _ => set_iParity x (m_currentSettings e)
      | StopBits _ => set_iStopBits x (m_currentSettings e)
      | FlowControl _ => set_iHandshake x (m_currentSettings e)
      end.
Proof.
  assert (Hsame : forall c : TCommConfigV01,
             set_iRate (iRate c) c = c /\ set_iDataBits (iDataBits c) c = c /\
             set_iParity (iParity c) c = c /\ set_iStopBits (iStopBits c) c = c /\
             set_iHandshake (iHandshake c) c = c).
  { intros c. destruct c. repeat split. }
  destruct (Hsame (m_currentSettings e)) as [S1 [S2 [S3 [S4 S5]]]].
  destruct s as [r dir | v | v | v | v]; simpl.
  - destruct (Z.eq_dec dir AllDirections) as [-> | Hd].
    + destruct (Z.eq_dec (settingFromRate r) 0) as [Hs | Hs].
      * rewrite setRate_rejects by (right; exact Hs).
        exists (iRate (m_currentSettings e)). simpl. symmetry. exact S1.
      * rewrite (setRate_accepts pf r e Hs).
        exists (settingFromRate r).
        apply (proj1 (edit_then_update pf _ e)).
    + rewrite setRate_rejects by (left; exact Hd).
      exists (iRate (m_currentSettings e)). simpl. symmetry. exact S1.
  - unfold setDataBits.
    repeat match goal with
           | |- context [if ?v =? ?k then _ else _] =>
             destruct (v =? k);
             [eexists; apply (proj1 (edit_then_update pf _ e)) |]
           end.
    exists (iDataBits (m_currentSettings e)). simpl. symmetry. exact S2.
  - unfold setParity.
    repeat match goal with
           | |- context [if ?v =? ?k then _ else _] =>
             destruct (v =? k);
             [eexists; apply (proj1 (edit_then_update pf _ e)) |]
           end.
    exists (iParity (m_currentSettings e)). simpl. symmetry. exact S3.
  - unfold setStopBits.
    repeat match goal with
           | |- context [if ?v =? ?k then _ else _] =>
             destruct (v =? k);
             [eexists; apply (proj1 (edit_then_update pf _ e)) |]
           end.
    exists (iStopBits (m_currentSettings e)). simpl. symmetry. exact S4.
  - unfold setFlowControl.
    repeat match goal with
           | |- context [if ?v =? ?k then _ else _] =>
             destruct (v =? k);
             [eexists; apply (proj1 (edit_then_update pf _ e)) |]
           end.
    exists (iHandshake (m_currentSettings e)). simpl. symmetry. exact S5.
Qed.

(** Each setter writes its own field of the working copy only: whatever is
    asked and whatever the port answers, the other four fields of
    [m_currentSettings] keep their values, and so do the saved settings, the
    options and the descriptor. *)
Theorem setters_touch_one_field (pf : Platform) (v dir : Z) (e : Engine) :
  let c := m_currentSettings e in
  (let c' := m_currentSettings (snd (setRate pf v dir e)) in
   iDataBits c' = iDataBits c /\ iStopBits c' = iStopBits c /\
   iParity c' = iParity c /\ iHandshake c' = iHandshake c) /\
  (let c' := m_currentSettings (snd (setDataBits pf v e)) in
   iRate c' = iRate c /\ iStopBits c' = iStopBits c /\
   iParity c' = iParity c /\ iHandshake c' = iHandshake c) /\
  (let c' := m_currentSettings (snd (setParity pf v e)) in
   iRate c' = iRate c /\ iDataBits c' = iDataBits c /\
   iStopBits c' = iStopBits c /\ iHandshake c' = iHandshake c) /\
  (let c' := m_currentSettings (snd (setStopBits pf v e)) in
   iRate c' = iRate c /\ iDataBits c' = iDataBits c /\
   iParity c' = iParity c /\ iHandshake c' = iHandshake c) /\
  (let c' := m_currentSettings (snd (setFlowControl pf v e)) in
   iRate c' = iRate c /\ iDataBits c' = iDataBits c /\
   iStopBits c' = iStopBits c /\ iParity c' = iParity c) /\
  (forall s,
     m_restoredSettings (snd (applySetting pf s e)) = m_restoredSettings e /\
     options (snd (applySetting pf s e)) = options e /\
     m_descriptor (snd (applySetting pf s e)) = m_descriptor e).
Proof.
  cbv zeta.
  destruct (applySetting_edits pf (Rate v dir) e) as [x1 H1].
  destruct (applySetting_edits pf (DataBits v) e) as [x2 H2].
  destruct (applySetting_edits pf (Parity v) e) as [x3 H3].
  destruct (applySetting_edits pf (StopBits v) e) as [x4 H4].
  destruct (applySetting_edits pf (FlowControl v) e) as [x5 H5].
  simpl in H1, H2, H3, H4, H5.
  rewrite H1, H2, H3, H4, H5. simpl.
  repeat match goal with |- _ /\ _ => split end; try reflexivity.
  intros s. destruct (applySetting_frame pf s e) as [F1 [F2 [F3 _]]]. auto.
Qed.

(** ** Detection and the setters *)

(** Native to portable and back: when detection gives a value other than
    Unknown, handing that value to the setter writes the native value it was
    detected from; for the rate this holds for every setting of the table but
    [EBps50].  The handshake word comes back as the word of the detected
    mode, so the mode is kept and other handshake bits are dropped. *)
Theorem detected_values_reapply (pf : Platform) (c : TCommConfigV01) (e : Engine) :
  (rateFromSetting (iRate c) <> 0 -> iRate c <> EBps50 ->
   iRate (m_currentSettings
            (snd (setRate pf (rateFromSetting (iRate c)) AllDirections e)))
   = iRate c) /\
  (detectDataBits c <> UnknownDataBits ->
   iDataBits (m_currentSettings (snd (setDataBits pf (detectDataBits c) e)))
   = iDataBits c) /\
  (detectParity c <> UnknownParity ->
   iParity (m_currentSettings (snd (setParity pf (detectParity c) e)))
   = iParity c) /\
  (detectStopBits c <> UnknownStopBits ->
   iStopBits (m_currentSettings (snd (setStopBits pf (detectStopBits c) e)))
   = iStopBits c) /\
  (detectFlow c <> UnknownFlowControl ->
   detectFlow (m_currentSettings (snd (setFlowControl pf (detectFlow c) e)))
   = detectFlow c).
Proof.
  repeat match goal with |- _ /\ _ => split end.
  - intros Hrate Hnot50.
    assert (Hin : In (iRate c) (map setting standardRatesTable))
      by (apply rateFromSetting_nonzero_iff; exact Hrate).
    pose proof (proj1 (forallb_forall _ _) setting_round_trips_table _ Hin) as Hback.
    unfold setting_round_trips in Hback. apply Z.eqb_eq in Hback.
    assert (Hset : settingFromRate (rateFromSetting (iRate c)) <> 0)
      by (rewrite Hback; exact Hnot50).
    rewrite (setRate_accepts pf _ e Hset).
    rewrite (proj1 (edit_then_update pf _ e)). simpl. exact Hback.
  - unfold detectDataBits.
    repeat match goal with
           | |- context [if ?v =? ?k then _ else _] =>
             destruct (Z.eqb_spec v k) as [He | _];
             [intros _; rewrite He;
              match goal with
              | |- context [setDataBits pf ?d e] =>
                change (setDataBits pf d e)
                  with ((edit_currentSettings (set_iDataBits k) ;;
                         updateCommConfig pf) e)
              end;
              rewrite (proj1 (edit_then_update pf _ e)); reflexivity |]
           end.
    intros H. contradiction.
  - unfold detectParity.
    repeat match goal with
           | |- context [if ?v =? ?k then _ else _] =>
             destruct (Z.eqb_spec v k) as [He | _];
             [intros _; rewrite He;
              match goal with
              | |- context [setParity pf ?d e] =>
                change (setParity pf d e)
                  with ((edit_currentSettings (set_iParity k) ;;
                         updateCommConfig pf) e)
              end;
              rewrite (proj1 (edit_then_update pf _ e)); reflexivity |]
           end.
    intros H. contradiction.
  - unfold detectStopBits.
    repeat match goal with
           | |- context [if ?v =? ?k then _ else _] =>
             destruct (Z.eqb_spec v k) as [He | _];
             [intros _; rewrite He;
              match goal with
              | |- context [setStopBits pf ?d e] =>
                change (setStopBits pf d e)
                  with ((edit_currentSettings (set_iStopBits k) ;;
                         updateCommConfig pf) e)
              end;
              rewrite (proj1 (edit_then_update pf _ e)); reflexivity |]
           end.
    intros H. contradiction.
  - intros Hknown.
    assert (Hvalid : In (detectFlow c) validFlow).
    { revert Hknown. unfold detectFlow.
      repeat match goal with
             | |- context [if ?b then _ else _] => destruct b
             end; simpl; intros H; try tauto. }
    destruct (setFlowControl_valid pf _ e Hvalid) as [n [Hrun Hdetect]].
    rewrite Hrun. apply Hdetect.
    rewrite (proj1 (edit_then_update pf _ e)). reflexivity.
Qed.

Lemma detected_values_reapply_witness :
  iRate (m_currentSettings
           (snd (setRate obligingPlatform
                   (rateFromSetting (iRate (mkCommConfig EBps19200 EData7 EStop2
                                                         EParityOdd 0x127)))
                   AllDirections freshEngine)))
  = EBps19200 /\
  iDataBits (m_currentSettings
               (snd (setDataBits obligingPlatform
                       (detectDataBits (mkCommConfig EBps19200 EData7 EStop2
                                                     EParityOdd 0x127))
                       freshEngine)))
  = EData7 /\
  detectFlow (m_currentSettings
                (snd (setFlowControl obligingPlatform
                        (detectFlow (mkCommConfig EBps19200 EData7 EStop2
                                                  EParityOdd 0x127))
                        freshEngine)))
  = SoftwareControl.
Proof.
  destruct (detected_values_reapply obligingPlatform
              (mkCommConfig EBps19200 EData7 EStop2 EParityOdd 0x127) freshEngine)
    as [Hrate [Hdata [_ [_ Hflow]]]].
  split; [| split].
  - apply Hrate; vm_compute; discriminate.
  - apply Hdata. vm_compute. discriminate.
  - apply Hflow. vm_compute. discriminate.
Defined.

(** Portable to native and back: every valid configuration whose rate is not
    50 is detected again exactly as it was applied, rate for both directions
    included, whatever state the engine was in and whatever the port answered
    to the five pushes. *)
Theorem valid_configuration_round_trip (pf : Platform) (P : PortConfiguration)
    (e : Engine) :
  validConfiguration P ->
  cfgRate P <> 50 ->
  let e' := snd (detectDefaultSettings (snd (applyConfiguration pf P e))) in
  configurationOf (options e') = P /\
  inputRate (options e') = cfgRate P /\
  outputRate (options e') = cfgRate P.
Proof.
  intros Hvalid Hnot50.
  assert (Hset : settingFromRate (cfgRate P) <> 0).
  { apply settingFromRate_nonzero_iff. split; [apply Hvalid | exact Hnot50]. }
  destruct (configuration_round_trip pf P e Hvalid Hset) as [Hcfg Hout].
  cbv zeta. split; [exact Hcfg |]. split; [| exact Hout].
  apply (f_equal cfgRate) in Hcfg. exact Hcfg.
Qed.

Lemma valid_configuration_round_trip_witness :
  configurationOf
    (options
       (snd (detectDefaultSettings
               (snd (applyConfiguration pushRefused
                       (mkPortConfiguration 57600 Data7 EvenParity TwoStop
                                            HardwareControl)
                       freshEngine)))))
  = mkPortConfiguration 57600 Data7 EvenParity TwoStop HardwareControl.
Proof.
  apply (valid_configuration_round_trip pushRefused
           (mkPortConfiguration 57600 Data7 EvenParity TwoStop HardwareControl)
           freshEngine).
  - unfold validConfiguration. simpl. tauto.
  - simpl. lia.
Defined.

(** ** The readiness wait, case by case *)

(** [select] returns true exactly when it got as far as the wait and the
    timer request was still pending when the wait returned. *)
Theorem select_true_iff (pf : Platform) (timeout : Z) (checkRead checkWrite : bool)
    (selectForRead selectForWrite : bool) (e : Engine) :
  result (fst (select pf timeout checkRead checkWrite selectForRead selectForWrite e))
  = true <->
  timerReady pf timeout e /\ timerStatus pf = KRequestPending.
Proof.
  select_cases pf timeout e checkRead checkWrite;
    split; intros; intuition (try congruence; try lia).
Qed.

Lemma select_true_iff_witness :
  result (fst (select readFires 100 true false false false freshEngine)) = true.
Proof.
  apply (proj2 (select_true_iff readFires 100 true false false false freshEngine)).
  split.
  - right. right. reflexivity.
  - reflexivity.
Defined.

(** When [select] returns true, a flag is set if its request completed and
    is otherwise left as the caller had it (it is not cleared); the timer is
    cancelled and so is every notification that was registered. *)
Theorem select_fired_outcome (pf : Platform) (timeout : Z)
    (checkRead checkWrite : bool) (selectForRead selectForWrite : bool)
    (e : Engine) :
  let out := select pf timeout checkRead checkWrite selectForRead selectForWrite e in
  result (fst out) = true ->
  forRead (fst out) = negb (readStatus pf =? KRequestPending) || selectForRead /\
  forWrite (fst out) = negb (writeStatus pf =? KRequestPending) || selectForWrite /\
  readWatch (snd out) = negb checkRead && readWatch e /\
  writeWatch (snd out) = negb checkWrite && writeWatch e /\
  exists before,
    calls (snd out)
    = calls e ++ before ++ [WaitForNRequest; TimerCancel; WaitForRequest]
              ++ cancelCalls checkRead checkWrite.
Proof.
  select_cases pf timeout e checkRead checkWrite;
    intros H; try discriminate H;
    (split; [destruct (readStatus pf =? KRequestPending); reflexivity |]);
    (split; [destruct (writeStatus pf =? KRequestPending); reflexivity |]);
    (split; [reflexivity |]); (split; [reflexivity |]);
    eexists; rewrite ?app_nil_r;
    match goal with
    | |- ?c ++ ?l = ?c ++ _ => 
      first [ instantiate (1 := []); reflexivity
            | instantiate (1 := [_]); reflexivity
            | instantiate (1 := [_; _]); reflexivity
            | instantiate (1 := [_; _; _]); reflexivity
            | instantiate (1 := [_; _; _; _]); reflexivity ]
    end.
Qed.

(** Data arrives while the caller's write flag is still true from an
    earlier call: the write flag comes back true although nothing was
    written. *)
Lemma select_fired_outcome_witness :
  forRead (fst (select readFires 100 true true false true freshEngine)) = true /\
  forWrite (fst (select readFires 100 true true false true freshEngine)) = true /\
  readWatch (snd (select readFires 100 true true false true freshEngine)) = false.
Proof.
  destruct (select_fired_outcome readFires 100 true true false true freshEngine
              eq_refl) as [Hread [Hwrite [Hwatch _]]].
  split; [exact Hread |]. split; [exact Hwrite | exact Hwatch].
Defined.

(** When a timeout is asked for and the timer cannot be created, [select]
    returns false at once: the flags are left as the caller had them, no
    notification is registered and nothing is waited for. *)
Theorem select_timer_creation_fails (pf : Platform) (timeout : Z)
    (checkRead checkWrite : bool) (selectForRead selectForWrite : bool)
    (e : Engine) :
  0 < timeout ->
  m_selectTimer e = false ->
  rCreateLocal pf <> KErrNone ->
  select pf timeout checkRead checkWrite selectForRead selectForWrite e
  = (mkSelected false selectForRead selectForWrite,
     with_calls (calls e ++ [TimerCreateLocal]) e).
Proof.
  intros Hpos Htimer Hcreate. apply Z.ltb_lt in Hpos. apply Z.eqb_neq in Hcreate.
  unfold select. rewrite Hpos. run. cbv [failed]. simpl.
  rewrite Htimer. simpl. rewrite Hcreate. simpl. rewrite Hcreate. reflexivity.
Qed.

Lemma select_timer_creation_fails_witness :
  select timerRefused 100 true true true false freshEngine
  = (mkSelected false true false,
     with_calls (calls freshEngine ++ [TimerCreateLocal]) freshEngine).
Proof.
  apply select_timer_creation_fails.
  - lia.
  - reflexivity.
  - vm_compute. discriminate.
Defined.

(** [select] is confined to the timer and the notifications: the error, the
    options, the descriptor, the working and the saved settings and the port
    are the same after it, whatever it returns. *)
Theorem select_keeps_engine (pf : Platform) (timeout : Z)
    (checkRead checkWrite : bool) (selectForRead selectForWrite : bool)
    (e : Engine) :
  let e' := snd (select pf timeout checkRead checkWrite selectForRead selectForWrite e) in
  error e' = error e /\
  options e' = options e /\
  m_descriptor e' = m_descriptor e /\
  m_currentSettings e' = m_currentSettings e /\
  m_restoredSettings e' = m_restoredSettings e /\
  portConfig e' = portConfig e.
Proof.
  select_cases pf timeout e checkRead checkWrite; auto 10.
Qed.



(** ** The module of a location *)

Lemma prefix_append (sub post : string) :
  String.prefix sub (sub ++ post) = true.
Proof.
  induction sub as [| a sub IH]; simpl.
  - destruct post; reflexivity.
  - destruct (Ascii.ascii_dec a a) as [_ | Hne]; [exact IH | contradiction].
Qed.

Lemma contains_unfold (s sub : string) :
  contains s sub
  = String.prefix sub s
    || match s with
       | EmptyString => false
       | String _ rest => contains rest sub
       end.
Proof. destruct s; reflexivity. Qed.

Lemma contains_append (pre sub post : string) :
  contains (pre ++ sub ++ post) sub = true.
Proof.
  induction pre as [| a pre IH]; rewrite contains_unfold; simpl.
  - rewrite prefix_append. reflexivity.
  - rewrite IH. apply orb_true_r.
Qed.

(** The Bluetooth test comes first: a location with BTCOMM anywhere in it
    loads the Bluetooth module, also when it names IRCOMM or ACM as well;
    and a location with IRCOMM in it loads the infrared module unless it has
    BTCOMM in it. *)
Theorem moduleFor_precedence (pre post : string) :
  moduleFor (pre ++ "BTCOMM" ++ post) = KBluetoothModuleName /\
  (contains (pre ++ "IRCOMM" ++ post) "BTCOMM" = false ->
   moduleFor (pre ++ "IRCOMM" ++ post) = KInfraRedModuleName).
Proof.
  unfold moduleFor. split.
  - rewrite contains_append. reflexivity.
  - intros Hno. rewrite Hno, contains_append. reflexivity.
Qed.

Lemma moduleFor_precedence_witness :
  moduleFor ("IRCOMM" ++ "BTCOMM" ++ "::0") = KBluetoothModuleName /\
  moduleFor ("" ++ "IRCOMM" ++ "::ACM") = KInfraRedModuleName.
Proof.
  split.
  - apply (proj1 (moduleFor_precedence "IRCOMM" "::0")).
  - apply (proj2 (moduleFor_precedence "" "::ACM")). reflexivity.
Defined.

(** ** Signal lines *)








(** ** The range of detection *)

(** Detection never leaves the portable enumerations: the rate is a rate of
    the table or 0, the data bits are 5 to 8 or Unknown, the parity is one of
    the five kinds or Unknown, the stop bits are one or two or Unknown (never
    one and a half), the flow control is none, hardware, software or
    Unknown; and both directions get the same rate. *)
Theorem detected_in_range (c : TCommConfigV01) (o : Options) :
  In (inputRate (detected c o)) (0 :: standardRates) /\
  outputRate (detected c o) = inputRate (detected c o) /\
  In (dataBits (detected c o)) (UnknownDataBits :: validDataBits) /\
  In (parity (detected c o)) (UnknownParity :: validParity) /\
  In (stopBits (detected c o)) (UnknownStopBits :: validStopBits) /\
  In (flow (detected c o)) (UnknownFlowControl :: validFlow) /\
  restoreSettingsOnClose (detected c o) = restoreSettingsOnClose o.
Proof.
  unfold detected. cbv zeta. simpl inputRate. simpl outputRate. simpl dataBits.
  simpl parity. simpl stopBits. simpl flow. simpl restoreSettingsOnClose.
  split; [| split; [reflexivity | split; [| split; [| split; [| split]]]]].
  - destruct (Z.eq_dec (rateFromSetting (iRate c)) 0) as [Hz | Hnz].
    + left. symmetry. exact Hz.
    + right.
      assert (Hin : In (iRate c) (map setting standardRatesTable))
        by (apply rateFromSetting_nonzero_iff; exact Hnz).
      enumerate Hin; rewrite <- Hin; vm_compute; tauto.
  - unfold detectDataBits.
    repeat match goal with
           | |- context [if ?b then _ else _] => destruct b
           end; simpl; tauto.
  - unfold detectParity.
    repeat match goal with
           | |- context [if ?b then _ else _] => destruct b
           end; simpl; tauto.
  - unfold detectStopBits.
    repeat match goal with
           | |- context [if ?b then _ else _] => destruct b
           end; simpl; tauto.
  - unfold detectFlow.
    repeat match goal with
           | |- context [if ?b then _ else _] => destruct b
           end; simpl; tauto.
  - reflexivity.
Qed.
